(** * Temperature analysis: a shallow embedding of [utils_func.py] and [app.py]

    The development follows the two Python sources:

    - [utils_func.py]: [get_current_temperature],
      [analyze_city_temperature] and the three figures
      [plot_temperature_time_series], [plot_seasonal_profile] and
      [plot_annual_temperature_cycle];
    - [app.py]: the choice of the city, the sign branching on the trend,
      the figure of the analysed frame and the seasonal normal-range
      check of a live reading.

    Numbers.  Python floats are modelled as exact real numbers extended
    with one [NaN] value (type [float] below): arithmetic propagates
    [NaN], every ordered comparison with [NaN] is [false].  Rounding and
    overflow of binary64 are outside the model.  A temperature read from
    the data set is a finite number and a season label is a string.

    Library code.  [pandas] and [scikit-learn] are modelled by their
    documented behaviour on the calls the sources make: [Series.mean],
    [std] (sample standard deviation, [ddof = 1]), [min], [max],
    [rolling(window, min_periods)], [groupby(..).transform],
    [groupby(..).agg], [DataFrame.loc] and
    [LinearRegression().fit(..).coef_].  A [plotly] figure is the list
    of its traces and the keyword arguments of its layout. *)

From Stdlib Require Import Reals Lra Psatz ZArith.
From stdpp Require Import base list gmap strings pretty sorting.

#[local] Open Scope R_scope.

(** ** Floats with a not-a-number value *)

#[global] Instance Rlt_decision : RelDecision Rlt := Rlt_dec.
#[global] Instance Rgt_decision : RelDecision Rgt := Rgt_dec.
#[global] Instance Rle_decision : RelDecision Rle := Rle_dec.
#[global] Instance Req_decision : EqDecision R := Req_dec_T.

Module Float.

Inductive float : Type :=
  | NaN : float
  | Fin : R → float.

Definition add (a b : float) : float :=
  match a, b with Fin x, Fin y => Fin (x + y) | _, _ => NaN end.

Definition sub (a b : float) : float :=
  match a, b with Fin x, Fin y => Fin (x - y) | _, _ => NaN end.

Definition mul (a b : float) : float :=
  match a, b with Fin x, Fin y => Fin (x * y) | _, _ => NaN end.

(** [a > b], [a < b] and [a <= b] as Python evaluates them. *)
Definition gt (a b : float) : bool :=
  match a, b with Fin x, Fin y => bool_decide (y < x) | _, _ => false end.

Definition lt (a b : float) : bool :=
  match a, b with Fin x, Fin y => bool_decide (x < y) | _, _ => false end.

Definition le (a b : float) : bool :=
  match a, b with Fin x, Fin y => bool_decide (x <= y) | _, _ => false end.

(** The mathematical reading of the three comparisons: they hold
    between finite numbers only. *)
Definition Gt (a b : float) : Prop :=
  match a, b with Fin x, Fin y => y < x | _, _ => False end.

Definition Lt (a b : float) : Prop :=
  match a, b with Fin x, Fin y => x < y | _, _ => False end.

Definition Le (a b : float) : Prop :=
  match a, b with Fin x, Fin y => x <= y | _, _ => False end.

Definition is_nan (a : float) : bool :=
  match a with NaN => true | Fin _ => false end.

End Float.

Export Float.

(** ** The pandas operations the analysis calls *)

Module Pandas.

Definition sum (xs : list R) : R := foldr Rplus 0 xs.

(** [Series.mean()]: [NaN] on an empty series. *)
Definition mean (xs : list R) : float :=
  match xs with
  | [] => NaN
  | _ :: _ => Fin (sum xs / INR (length xs))
  end.

(** [Series.std()] with the default [ddof = 1]: [NaN] when fewer than
    two observations are present. *)
Definition std (xs : list R) : float :=
  if (length xs <? 2)%nat then NaN
  else
    let m := sum xs / INR (length xs) in
    Fin (sqrt (sum (fmap (λ x, (x - m) * (x - m)) xs) / INR (length xs - 1))).

(** [Series.min()] and [Series.max()]: [NaN] on an empty series. *)
Definition min (xs : list R) : float :=
  match xs with
  | [] => NaN
  | x :: xs' => Fin (foldr Rmin x xs')
  end.

Definition max (xs : list R) : float :=
  match xs with
  | [] => NaN
  | x :: xs' => Fin (foldr Rmax x xs')
  end.

(** The trailing window that ends at position [p]: the positions
    [p + 1 - w .. p] of the series. *)
Definition window (w : nat) (xs : list R) (p : nat) : list R :=
  drop (S p - w) (take (S p) xs).

(** [x.rolling(window=w, min_periods=mp).agg()]: one value per
    position; [NaN] when the window holds fewer than [mp] values. *)
Definition rolling (w mp : nat) (agg : list R → float) (xs : list R)
  : list float :=
  fmap (λ p, let win := window w xs p in
            if (length win <? mp)%nat then NaN else agg win)
      (seq 0 (length xs)).

(** Row positions of the group with key [k]. *)
Definition group_positions (keys : list string) (k : string) : list nat :=
  filter (λ i, keys !! i = Some k) (seq 0 (length keys)).

(** [groupby(key)]: one group per distinct key, each with the positions
    of its rows in the original order.  pandas lists the groups by
    sorted key; the two consumers below do not depend on that order. *)
Definition groupby (keys : list string) : list (string * list nat) :=
  fmap (λ k, (k, group_positions keys k)) (remove_dups keys).

(** The sub-series of a column at the given positions. *)
Definition take_rows {A} (idx : list nat) (col : list A) : list A :=
  omap (λ i, col !! i) idx.

(** Writing the values of one group back at the positions of its rows. *)
Definition scatter {A} (idx : list nat) (vals : list A) (out : list A)
  : list A :=
  foldr (λ iv acc, <[iv.1 := iv.2]> acc) out (zip idx vals).

(** [groupby(key)[col].transform(f)]: [f] runs on each group's
    sub-series and the results come back in the original row order. *)
Definition transform_group (f : list R → list float) (col : list R)
    (g : string * list nat) (out : list float) : list float :=
  scatter g.2 (f (take_rows g.2 col)) out.

Definition transform (f : list R → list float)
    (keys : list string) (col : list R) : list float :=
  foldr (transform_group f col) (replicate (length col) NaN) (groupby keys).

(** [groupby(key)[col].agg(['mean', 'std'])]: a frame indexed by the
    group key with the two aggregates as columns. *)
Definition agg_mean_std (keys : list string) (col : list R)
  : gmap string (float * float) :=
  list_to_map
    (fmap (λ g, (g.1, (mean (take_rows g.2 col), std (take_rows g.2 col))))
         (groupby keys)).

End Pandas.

Export Pandas.

(** ** Exceptions *)

Inductive exn : Type :=
  | KeyError (key : string)
  | ValueError (msg : string)
  | TypeError (msg : string)
  | RequestException (msg : string)
  | JSONDecodeError (msg : string).

Inductive result (A : Type) : Type :=
  | Ok (a : A)
  | Raise (e : exn).

Arguments Ok {A} a.
Arguments Raise {A} e.

Definition bind {A B} (r : result A) (k : A → result B) : result B :=
  match r with Ok a => k a | Raise e => Raise e end.

Notation "'let*' x := r 'in' k" := (bind r (λ x, k))
  (at level 10, x name, r at level 100, k at level 200, only parsing).

Definition raises {A} (r : result A) : Prop := ∃ e, r = Raise e.

(** [str(e)] for a caught exception. *)
Definition str (e : exn) : string :=
  match e with
  | KeyError key => "'" +:+ key +:+ "'"
  | ValueError msg | TypeError msg
  | RequestException msg | JSONDecodeError msg => msg
  end.

(** ** scikit-learn: the slope of a one-predictor least-squares fit *)

Module Sklearn.

(** [LinearRegression().fit(X, y).coef_[0]] for a single-column [X].
    The fit refuses an empty sample.  Both variables are centred and the
    minimum-norm least-squares solution is returned: the usual slope
    when the predictor varies and [0] when it does not. *)
Definition fit_coef (xs ys : list R) : result R :=
  match xs with
  | [] => Raise (ValueError "Found array with 0 sample(s) while a minimum of 1 is required by LinearRegression.")
  | _ :: _ =>
      let n := INR (length xs) in
      let xm := sum xs / n in
      let ym := sum ys / n in
      let sxx := sum (fmap (λ x, (x - xm) * (x - xm)) xs) in
      let sxy := sum (zip_with (λ x y, (x - xm) * (y - ym)) xs ys) in
      Ok (if decide (sxx = 0) then 0 else sxy / sxx)
  end.

End Sklearn.

(** ** [utils_func.py]: [analyze_city_temperature] *)

(** One record of the uploaded data set.  The timestamp is the instant
    on the integer time axis that the fit receives as its predictor. *)
Record Row : Type := {
  timestamp : Z;
  city : string;
  temperature : R;
  season : string
}.

(** The caller's frame: the records, and the three columns that the
    analysis writes ([None]: the frame has no such column). *)
Record DataFrame : Type := {
  rows : list Row;
  col_rolling_mean : option (list float);
  col_rolling_std : option (list float);
  col_anomaly : option (list bool)
}.

(** The frame as [app.py] builds it from the CSV file. *)
Definition frame_of (rs : list Row) : DataFrame :=
  {| rows := rs; col_rolling_mean := None; col_rolling_std := None;
     col_anomaly := None |}.

Definition temperatures (df : DataFrame) : list R :=
  fmap temperature (rows df).

Definition seasons (df : DataFrame) : list string :=
  fmap season (rows df).

(** The dictionary that [analyze_city_temperature] returns. *)
Record AnalysisResult : Type := {
  r_city : string;
  r_average_temperature : float;
  r_min_temperature : float;
  r_max_temperature : float;
  r_season_profile : gmap string (float * float);
  r_trend : R;
  r_rolling_mean : list (Z * float);
  r_rolling_std : list (Z * float);
  r_anomalies : list (Z * R)
}.

(** Lines 73-78: the two rolling columns, per season, window 30. *)
Definition rolling_mean (city_df : DataFrame) : list float :=
  transform (rolling 30 1 mean) (seasons city_df) (temperatures city_df).

Definition rolling_std (city_df : DataFrame) : list float :=
  transform (rolling 30 1 std) (seasons city_df) (temperatures city_df).

(** Lines 81-85: the row-wise anomaly test. *)
Definition anomaly_row (temp : R) (rmean rstd : float) : bool :=
  gt (Fin temp) (add rmean (mul (Fin 2) rstd))
  || lt (Fin temp) (sub rmean (mul (Fin 2) rstd)).

Definition anomaly (rs : list Row) (rmean rstd : list float) : list bool :=
  zip_with (λ r ms, anomaly_row (temperature r) ms.1 ms.2) rs (zip rmean rstd).

(** Line 88. *)
Definition season_profile (city_df : DataFrame) : gmap string (float * float) :=
  agg_mean_std (seasons city_df) (temperatures city_df).

(** Lines 91-93. *)
Definition avg_temp (city_df : DataFrame) : float := mean (temperatures city_df).
Definition min_temp (city_df : DataFrame) : float := min (temperatures city_df).
Definition max_temp (city_df : DataFrame) : float := max (temperatures city_df).

(** Lines 91-93 as one block: none of the three calls can raise. *)
Definition descriptive_statistics (city_df : DataFrame)
  : result (float * float * float) :=
  Ok (avg_temp city_df, min_temp city_df, max_temp city_df).

(** Line 96 and the projection of line 113. *)
Definition anomalies (rs : list Row) (flags : list bool) : list (Z * R) :=
  omap (λ rf : Row * bool,
          if rf.2 then Some (timestamp rf.1, temperature rf.1) else None)
       (zip rs flags).

(** Lines 99-101. *)
Definition trend (city_df : DataFrame) : result R :=
  Sklearn.fit_coef (fmap (λ r, IZR (timestamp r)) (rows city_df))
                   (temperatures city_df).

(** The three column assignments, on the caller's frame. *)
Definition set_rolling_mean (v : list float) (df : DataFrame) : DataFrame :=
  {| rows := rows df; col_rolling_mean := Some v;
     col_rolling_std := col_rolling_std df; col_anomaly := col_anomaly df |}.

Definition set_rolling_std (v : list float) (df : DataFrame) : DataFrame :=
  {| rows := rows df; col_rolling_mean := col_rolling_mean df;
     col_rolling_std := Some v; col_anomaly := col_anomaly df |}.

Definition set_anomaly (v : list bool) (df : DataFrame) : DataFrame :=
  {| rows := rows df; col_rolling_mean := col_rolling_mean df;
     col_rolling_std := col_rolling_std df; col_anomaly := Some v |}.

(** The whole function.  The frame is passed by reference: the first
    component is the caller's frame after the call, the second what the
    call returns or raises.  On a frame without rows the row-wise
    [apply] and the boolean selection have no row to visit; the first
    call that refuses an empty input is the fit. *)
Definition analyze_city_temperature (city_df : DataFrame)
    (selected_city : string) : DataFrame * result AnalysisResult :=
  let rmean := rolling_mean city_df in
  let df1 := set_rolling_mean rmean city_df in
  let rstd := rolling_std df1 in
  let df2 := set_rolling_std rstd df1 in
  let flags := anomaly (rows df2) rmean rstd in
  let df3 := set_anomaly flags df2 in
  let profile := season_profile df3 in
  let avg := avg_temp df3 in
  let mn := min_temp df3 in
  let mx := max_temp df3 in
  let anom := anomalies (rows df3) flags in
  (df3,
   let* coef := trend df3 in
   Ok {| r_city := selected_city;
         r_average_temperature := avg;
         r_min_temperature := mn;
         r_max_temperature := mx;
         r_season_profile := profile;
         r_trend := coef;
         r_rolling_mean := zip (fmap timestamp (rows df3)) rmean;
         r_rolling_std := zip (fmap timestamp (rows df3)) rstd;
         r_anomalies := anom |}).

(** ** [app.py] *)

(** Lines 39-44: the three messages and the branching that picks one. *)
Inductive trend_report : Type :=
  | TrendPositive   (* "trend is positive" *)
  | TrendZero       (* "trend coefficient is zero" *)
  | TrendNegative.  (* "trend is negative" *)

Definition report_trend (trend : R) : trend_report :=
  if bool_decide (trend > 0) then TrendPositive
  else if bool_decide (trend > 0) then TrendZero
  else TrendNegative.

(** Lines 83-86. *)
Definition season_map (month : nat) : option string :=
  match month with
  | 12 | 1 | 2 => Some "winter"
  | 3 | 4 | 5 => Some "spring"
  | 6 | 7 | 8 => Some "summer"
  | 9 | 10 | 11 => Some "autumn"
  | _ => None
  end%nat.

(** [season_profile.loc[label]]. *)
Definition loc (profile : gmap string (float * float)) (label : string)
  : result (float * float) :=
  match profile !! label with
  | Some entry => Ok entry
  | None => Raise (KeyError label)
  end.

(** Lines 89-95. *)
Record ReadingCheck : Type := {
  mean_temp : float;
  std_temp : float;
  lower_bound : float;
  upper_bound : float;
  is_normal : bool
}.

Definition normal_range (mean_temp std_temp current_temp : float)
  : ReadingCheck :=
  let lower_bound := sub mean_temp (mul (Fin 2) std_temp) in
  let upper_bound := add mean_temp (mul (Fin 2) std_temp) in
  {| mean_temp := mean_temp; std_temp := std_temp;
     lower_bound := lower_bound; upper_bound := upper_bound;
     is_normal := le lower_bound current_temp && le current_temp upper_bound |}.

Definition check_current_reading (current_temp : float)
    (profile : gmap string (float * float)) (current_season : string)
  : result ReadingCheck :=
  let* current_season_profile := loc profile current_season in
  Ok (normal_range current_season_profile.1 current_season_profile.2
                   current_temp).

(** ** [utils_func.py]: [get_current_temperature] *)

(** Python values that a decoded JSON document or the function's own
    dictionaries are made of. *)
#[warnings="-register-all"]
Inductive value : Type :=
  | VNone
  | VBool (b : bool)
  | VNum (x : float)
  | VStr (s : string)
  | VList (items : list value)
  | VDict (items : list (string * value)).

Definition is_dict (v : value) : bool :=
  match v with VDict _ => true | _ => false end.

Definition is_number (v : value) : bool :=
  match v with VNum _ => true | _ => false end.

Fixpoint dict_get (items : list (string * value)) (key : string)
  : option value :=
  match items with
  | [] => None
  | (k, v) :: rest => if decide (k = key) then Some v else dict_get rest key
  end.

(** [obj[key]] for a string key. *)
Definition getitem (obj : value) (key : string) : result value :=
  match obj with
  | VDict items =>
      match dict_get items key with
      | Some v => Ok v
      | None => Raise (KeyError key)
      end
  | VList _ => Raise (TypeError "list indices must be integers or slices, not str")
  | VStr _ => Raise (TypeError "string indices must be integers")
  | VNone | VBool _ | VNum _ => Raise (TypeError "object is not subscriptable")
  end.

(** What the network gives back to [requests.get]: the call raises, or
    a response arrives whose body decodes as JSON or does not. *)
Inductive body : Type :=
  | NotJson (msg : string)
  | Json (data : value).

Inductive http_outcome : Type :=
  | RequestFails (msg : string)
  | Response (status_code : Z) (b : body).

Definition requests_get (o : http_outcome) : result (Z * body) :=
  match o with
  | RequestFails msg => Raise (RequestException msg)
  | Response status_code b => Ok (status_code, b)
  end.

Definition response_json (b : body) : result value :=
  match b with
  | NotJson msg => Raise (JSONDecodeError msg)
  | Json data => Ok data
  end.

Definition invalid_key_message : string :=
  "Invalid API key. Please see https://openweathermap.org/faq#error401 for more info.".

Definition invalid_key_dict : value :=
  VDict [("cod", VStr "401"); ("message", VStr invalid_key_message)].

Definition error_dict (msg : string) : value :=
  VDict [("error", VStr msg)].

(** The body of the [try] block: [Some v] when a [return v] is reached,
    [None] when control falls out of the block. *)
Definition try_block (o : http_outcome) : result (option value) :=
  let* response := requests_get o in
  let* data := response_json response.2 in
  if decide (response.1 = 401%Z) then Ok (Some invalid_key_dict)
  else if decide (response.1 = 200%Z) then
    let* main := getitem data "main" in
    let* temp := getitem main "temp" in
    Ok (Some temp)
  else Ok None.

(** The function itself; the outcome of the one HTTP request that it
    sends for [city] and [api_key_current] is [http]. *)
Definition get_current_temperature (http : string → string → http_outcome)
    (city api_key_current : string) : result value :=
  match try_block (http city api_key_current) with
  | Ok (Some v) => Ok v
  | Raise e => Ok (error_dict (str e))
  | Ok None => Ok (error_dict "Unexpected error occurred.")
  end.

(** [app.py], line 77: how the caller tells a failure from a reading. *)
Definition is_failure (current_temp : value) : bool := is_dict current_temp.

(** ** The rolling statistics as the specification words them *)

Module Spec.

(** Temperatures of the records up to and including record [i] that
    carry the season of record [i], in row order. *)
Definition season_partition_upto (rs : list Row) (i : nat) : list R :=
  match rs !! i with
  | Some r =>
      fmap temperature (filter (λ r', season r' = season r) (take (S i) rs))
  | None => []
  end.

(** The last [w] elements. *)
Definition trailing (w : nat) (xs : list R) : list R :=
  drop (length xs - w) xs.

Definition rolling_mean (rs : list Row) (i : nat) : float :=
  mean (trailing 30 (season_partition_upto rs i)).

Definition rolling_std (rs : list Row) (i : nat) : float :=
  std (trailing 30 (season_partition_upto rs i)).


(** Temperatures of all the records with season [k], in row order. *)
Definition season_temperatures (rs : list Row) (k : string) : list R :=
  temperature <$> filter (λ r, season r = k) rs.

(** Later readings are strictly warmer (colder), and time does move. *)
Definition increasing (rs : list Row) : Prop :=
  ∀ r r', r ∈ rs → r' ∈ rs →
    (timestamp r < timestamp r')%Z → temperature r < temperature r'.

Definition decreasing (rs : list Row) : Prop :=
  ∀ r r', r ∈ rs → r' ∈ rs →
    (timestamp r < timestamp r')%Z → temperature r' < temperature r.

Definition time_moves (rs : list Row) : Prop :=
  ∃ r r', r ∈ rs ∧ r' ∈ rs ∧ (timestamp r < timestamp r')%Z.


End Spec.

(** ** Sums over a list of points *)

Module Points.

Definition sum_x (ps : list (R * R)) : R := sum (fst <$> ps).
Definition sum_y (ps : list (R * R)) : R := sum (snd <$> ps).
Definition sum_xy (ps : list (R * R)) : R := sum ((λ p, p.1 * p.2) <$> ps).

(** [n * sum_xy - sum_x * sum_y]: the numerator of the slope, up to the
    positive factor [n]. *)
Definition covariance_n (ps : list (R * R)) : R :=
  INR (length ps) * sum_xy ps - sum_x ps * sum_y ps.

(** The sum over all ordered pairs of points of the product of their
    differences. *)
Definition cross (ps : list (R * R)) : R :=
  sum ((λ p, sum ((λ q, (q.1 - p.1) * (q.2 - p.2)) <$> ps)) <$> ps).

Definition comonotone (ps : list (R * R)) : Prop :=
  ∀ p q, p ∈ ps → q ∈ ps → p.1 < q.1 → p.2 < q.2.

Definition antitone (ps : list (R * R)) : Prop :=
  ∀ p q, p ∈ ps → q ∈ ps → p.1 < q.1 → q.2 < p.2.

Definition spread (ps : list (R * R)) : Prop :=
  ∃ p q, p ∈ ps ∧ q ∈ ps ∧ p.1 < q.1.

(** The same point with the second coordinate negated. *)
Definition mirror (p : R * R) : R * R := (p.1, - p.2).

End Points.

(** ** Sample data *)

Module Samples.

Definition day (ts : Z) (temp : R) (s : string) : Row :=
  {| timestamp := ts; city := "Berlin"; temperature := temp; season := s |}.

Definition no_days : DataFrame := frame_of [].

Definition one_day : DataFrame := frame_of [day 0 5 "winter"].

Definition two_winter_days : DataFrame :=
  frame_of [day 0 1 "winter"; day 1 3 "winter"].

Definition two_equal_days : DataFrame :=
  frame_of [day 0 5 "winter"; day 1 5 "winter"].

(** Six days at zero degrees and a warm seventh. *)
Definition spike_week : DataFrame :=
  frame_of [day 0 0 "winter"; day 1 0 "winter"; day 2 0 "winter";
            day 3 0 "winter"; day 4 0 "winter"; day 5 0 "winter";
            day 6 10 "winter"].

(** A server that answers 401 with a body that is not JSON. *)
Definition unauthorized_plain_text (city api_key : string) : http_outcome :=
  Response 401 (NotJson "Expecting value: line 1 column 1 (char 0)").

(** A server that answers 200 with the temperature of the city. *)
Definition healthy_server (city api_key : string) : http_outcome :=
  Response 200
    (Json (VDict [("main", VDict [("temp", VNum (Fin 7)); ("humidity", VNum (Fin 80))]);
                  ("name", VStr city)])).

End Samples.

(** ** [app.py]: choosing the city and checking the live reading *)

(** [Series.unique()]: the distinct values in order of first
    appearance.  A cell of the [city] column is a label, or NaN
    ([None]) where the file has a blank; NaN is listed once. *)
Fixpoint unique {L : Type} `{EqDecision L} (l : list L) : list L :=
  match l with
  | [] => []
  | x :: l' => x :: filter (λ y, y ≠ x) (unique l')
  end.

(** Line 25, on the [city] column of the uploaded file. *)
Definition cities (city_column : list (option string)) : list (option string) :=
  unique city_column.

(** [==] on two cells: NaN is equal to nothing, itself included. *)
Definition cell_eq (a b : option string) : bool :=
  match a, b with
  | Some x, Some y => bool_decide (x = y)
  | _, _ => false
  end.

(** Line 28: [data[data['city'] == selected_city].copy()], the lines of
    the file whose city cell equals the selected entry, in file order.
    [city_of] reads the city cell of a line; the other cells of a line
    are not looked at. *)
Definition city_lines {A : Type} (city_of : A → option string)
    (data : list A) (selected_city : option string) : list A :=
  filter (λ u, cell_eq (city_of u) selected_city = true) data.

(** Line 88: [season_map[month]]. *)
Definition current_season (month : nat) : result string :=
  match season_map month with
  | Some s => Ok s
  | None => Raise (KeyError (pretty month))
  end.

(** Lines 88-95 for a numeric reading taken in the given month. *)
Definition check_reading_in_month (month : nat) (current_temp : float)
    (profile : gmap string (float * float)) : result ReadingCheck :=
  let* s := current_season month in
  check_current_reading current_temp profile s.

(** The four labels of [season_map], in calendar order from December. *)
Definition calendar_seasons : list string :=
  ["winter"; "spring"; "summer"; "autumn"].

(** What lines 80-104 put on the page, call by call. *)
Inductive st_call : Type :=
  | StCurrentTemperature (current_temp : float)      (* lines 80-81 *)
  | StSeasonMean (mean_temp : float)                 (* line 97 *)
  | StSeasonStd (std_temp : float)                   (* line 98 *)
  | StNormalRange (lower_bound upper_bound : float)  (* line 99 *)
  | StSuccessNormal                                  (* line 102 *)
  | StWarningOutOfRange.                             (* line 104 *)

(** How a run of the script ends.  [app.py] has no [try] statement: an
    exception that one of its lines raises is caught nowhere in the
    script and ends the run. *)
Inductive script_end : Type :=
  | Finished
  | Uncaught (e : exn).

(** Lines 80-104 for a numeric reading taken in the given month: the
    calls made, in order, and how the run ends. *)
Definition live_reading_section (current_temp : float) (month : nat)
    (profile : gmap string (float * float)) : list st_call * script_end :=
  let page := [StCurrentTemperature current_temp] in
  match check_reading_in_month month current_temp profile with
  | Raise e => (page, Uncaught e)
  | Ok c =>
      (page ++ [StSeasonMean (mean_temp c); StSeasonStd (std_temp c);
                StNormalRange (lower_bound c) (upper_bound c);
                if is_normal c then StSuccessNormal else StWarningOutOfRange],
       Finished)
  end.

(** ** Plotly figures *)

Module Plotly.

(** One [go.Scatter] trace: its data, its mode and name, and its other
    keyword arguments as they are written in the call. *)
Record Scatter (X : Type) : Type := {
  x : list X;
  y : list float;
  mode : option string;
  name : string;
  attrs : list (string * value)
}.

Arguments x {X} _.
Arguments y {X} _.
Arguments mode {X} _.
Arguments name {X} _.
Arguments attrs {X} _.

(** A figure: its traces in the order they were added, and its layout. *)
Record Figure (X : Type) : Type := {
  data : list (Scatter X);
  layout : list (string * value)
}.

Arguments data {X} _.
Arguments layout {X} _.

(** [go.Figure()]. *)
Definition empty {X : Type} : Figure X := {| data := []; layout := [] |}.

Definition add_trace {X : Type} (fig : Figure X) (t : Scatter X) : Figure X :=
  {| data := data fig ++ [t]; layout := layout fig |}.

(** Keys given later take precedence in a lookup. *)
Definition update_layout {X : Type} (fig : Figure X)
    (kwargs : list (string * value)) : Figure X :=
  {| data := data fig; layout := kwargs ++ layout fig |}.

(** The points of a trace. *)
Definition points {X : Type} (t : Scatter X) : list (X * float) :=
  zip (x t) (y t).

End Plotly.

(** ** Arithmetic on columns *)

(** [k * column]. *)
Definition series_scale (k : R) (col : list float) : list float :=
  mul (Fin k) <$> col.

(** [a + b] and [a - b] on two columns.  pandas pairs the rows by index
    label.  The operands met here are columns of frames that carry the
    same labels in the same order (two columns cut from one frame, or
    two frames renumbered by [reset_index]), so the rows pair up by
    position; a row that only one side has gives NaN. *)
Definition series_binop (op : float → float → float) (a b : list float)
  : list float :=
  (λ i, op (default NaN (a !! i)) (default NaN (b !! i)))
    <$> seq 0 (length a `max` length b).

(** ** [utils_func.py]: [plot_temperature_time_series] *)











(** ** [utils_func.py]: [plot_seasonal_profile] *)

(** The profile frame as the figure reads it: the index and the two
    columns, row by row. *)
Definition profile_index (season_profile : list (string * (float * float)))
  : list string := fst <$> season_profile.

Definition profile_means (season_profile : list (string * (float * float)))
  : list float := (λ e, e.2.1) <$> season_profile.

Definition profile_stds (season_profile : list (string * (float * float)))
  : list float := (λ e, e.2.2) <$> season_profile.

Definition plot_seasonal_profile
    (season_profile : list (string * (float * float))) : Plotly.Figure string :=
  let seasons := profile_index season_profile in
  let means := profile_means season_profile in
  let stds := profile_stds season_profile in
  let fig_profile := Plotly.empty in
  let fig_profile :=
    Plotly.add_trace fig_profile
      {| Plotly.x := seasons;
         Plotly.y := means;
         Plotly.mode := Some "lines+markers";
         Plotly.name := "Средняя температура";
         Plotly.attrs :=
           [("line", VDict [("color", VStr "#8fe68f"); ("width", VNum (Fin 2))]);
            ("hovertemplate",
             VStr "Сезон: %{x}<br>Средняя температура: %{y}°C")] |} in
  let fig_profile :=
    Plotly.add_trace fig_profile
      {| Plotly.x := seasons ++ reverse seasons;
         Plotly.y := zip_with add means stds
                     ++ reverse (zip_with sub means stds);
         Plotly.mode := None;
         Plotly.name := "Стандартное отклонение";
         Plotly.attrs :=
           [("fill", VStr "toself");
            ("fillcolor", VStr "rgba(230, 187, 143, 0.2)");
            ("line", VDict [("color", VStr "rgba(255,255,255,0)")]);
            ("hoverinfo", VStr "skip")] |} in
  Plotly.update_layout fig_profile
    [("title", VStr "Сезонные профили температуры");
     ("xaxis_title", VStr "Сезон");
     ("yaxis_title", VStr "Температура, °C");
     ("template", VStr "plotly_white");
     ("hovermode", VStr "x unified")].

(** ** [utils_func.py]: [plot_annual_temperature_cycle] *)

(** Row positions of the records of month [m]. *)
Definition month_positions (months : list nat) (m : nat) : list nat :=
  filter (λ i, months !! i = Some m) (seq 0 (length months)).

(** [groupby('month')]: one group per distinct month, by increasing
    month. *)
Definition groupby_month (months : list nat) : list (nat * list nat) :=
  (λ m, (m, month_positions months m)) <$> merge_sort (≤) (remove_dups months).

(** [groupby('month')['temperature'].agg().reset_index()]: a frame with
    the columns [month] and [temperature]. *)
Definition monthly (agg : list R → float) (months : list nat) (temps : list R)
  : list (nat * float) :=
  (λ g, (g.1, agg (take_rows g.2 temps))) <$> groupby_month months.

(** The function.  [dt_month] is the calendar month of a timestamp
    ([.dt.month]).  The first component is the [month] column that the
    call writes into the caller's frame, the second the figure. *)
Definition plot_annual_temperature_cycle (dt_month : Z → nat)
    (city_data : DataFrame) : list nat * Plotly.Figure nat :=
  let month := (λ r, dt_month (timestamp r)) <$> rows city_data in
  let monthly_avg := monthly mean month (temperatures city_data) in
  let monthly_std := monthly std month (temperatures city_data) in
  let fig := Plotly.empty in
  let fig :=
    Plotly.add_trace fig
      {| Plotly.x := fst <$> monthly_avg;
         Plotly.y := snd <$> monthly_avg;
         Plotly.mode := Some "lines+markers";
         Plotly.name := "Средняя температура";
         Plotly.attrs :=
           [("line", VDict [("color", VStr "#8f8fe6"); ("width", VNum (Fin 2))]);
            ("hovertemplate", VStr "Месяц: %{x}<br>Температура: %{y}°C")] |} in
  let fig :=
    Plotly.add_trace fig
      {| Plotly.x := fst <$> monthly_avg;
         Plotly.y := series_binop add (snd <$> monthly_avg)
                       (series_scale 2 (snd <$> monthly_std));
         Plotly.mode := Some "lines";
         Plotly.name := "Верхняя граница (средняя + σ)";
         Plotly.attrs :=
           [("line", VDict [("color", VStr "#8f8fe6"); ("dash", VStr "dot")]);
            ("showlegend", VBool false);
            ("hovertemplate", VStr "Месяц: %{x}<br>Граница: %{y}°C")] |} in
  let fig :=
    Plotly.add_trace fig
      {| Plotly.x := fst <$> monthly_avg;
         Plotly.y := series_binop sub (snd <$> monthly_avg)
                       (series_scale 2 (snd <$> monthly_std));
         Plotly.mode := Some "lines";
         Plotly.name := "Нижняя граница (средняя - σ)";
         Plotly.attrs :=
           [("line", VDict [("color", VStr "#8f8fe6"); ("dash", VStr "dot")]);
            ("fill", VStr "tonexty");
            ("fillcolor", VStr "rgba(143, 143, 230, 0.2)");
            ("showlegend", VBool false);
            ("hovertemplate", VStr "Месяц: %{x}<br>Граница: %{y}°C")] |} in
  (month,
   Plotly.update_layout fig
     [("title", VStr "Средняя температура по месяцам");
      ("xaxis_title", VStr "Месяц");
      ("yaxis_title", VStr "Температура (°C)");
      ("xaxis",
       VDict [("tickmode", VStr "array");
              ("tickvals", VList ((λ n, VNum (Fin (INR n))) <$> seq 1 12));
              ("ticktext",
               VList (VStr <$> ["Янв"; "Фев"; "Мар"; "Апр"; "Май"; "Июн";
                                "Июл"; "Авг"; "Сен"; "Окт"; "Ноя"; "Дек"]))]);
      ("template", VStr "plotly_white");
      ("hovermode", VStr "x unified")]).

(** ** More sample data *)

Module MoreSamples.

(** Five days at zero degrees and a warm sixth. *)
Definition spike_after_five : DataFrame :=
  frame_of [Samples.day 0 0 "winter"; Samples.day 1 0 "winter";
            Samples.day 2 0 "winter"; Samples.day 3 0 "winter";
            Samples.day 4 0 "winter"; Samples.day 5 10 "winter"].

(** What the analysis of [Samples.two_winter_days] returns: the fitted
    slope is two degrees per unit of time. *)
Definition two_winter_days_result : AnalysisResult :=
  let city_df := Samples.two_winter_days in
  {| r_city := "Berlin";
     r_average_temperature := avg_temp city_df;
     r_min_temperature := min_temp city_df;
     r_max_temperature := max_temp city_df;
     r_season_profile := season_profile city_df;
     r_trend := 2;
     r_rolling_mean := zip (timestamp <$> rows city_df) (rolling_mean city_df);
     r_rolling_std := zip (timestamp <$> rows city_df) (rolling_std city_df);
     r_anomalies :=
       anomalies (rows city_df)
         (anomaly (rows city_df) (rolling_mean city_df) (rolling_std city_df)) |}.

(** The city cells of a file with three lines; the second is blank. *)
Definition city_cells_with_a_blank : list (option string) :=
  [Some "Berlin"; None; Some "Berlin"].

End MoreSamples.

(** * Properties *)

(** ** Lists: scattering, grouping, rolling *)

Section ListFacts.

Context {A : Type}.

Lemma length_scatter (idx : list nat) (vals out : list A) :
  length (scatter idx vals out) = length out.
Proof.
  unfold scatter. revert vals.
  induction idx as [|i idx IH]; intros [|v vals]; simpl; auto.
  rewrite length_insert. apply IH.
Qed.

Lemma scatter_lookup_notin (idx : list nat) (vals out : list A) (i : nat) :
  i ∉ idx → scatter idx vals out !! i = out !! i.
Proof.
  unfold scatter. revert vals.
  induction idx as [|j idx IH]; intros [|v vals] Hi; simpl; auto.
  apply not_elem_of_cons in Hi as [Hne Hi].
  rewrite list_lookup_insert_ne by congruence. now apply IH.
Qed.

Lemma scatter_lookup_in (idx : list nat) (vals out : list A) (p i : nat) :
  NoDup idx → idx !! p = Some i → (p < length vals)%nat →
  (i < length out)%nat →
  scatter idx vals out !! i = vals !! p.
Proof.
  unfold scatter. revert vals p.
  induction idx as [|j idx IH]; intros vals p Hnd Hp Hlen Hi.
  - discriminate.
  - destruct vals as [|v vals]; [simpl in Hlen; lia|].
    apply NoDup_cons in Hnd as [Hj Hnd]. simpl.
    destruct p as [|p]; simpl in *.
    + injection Hp as ->.
      apply list_lookup_insert_eq.
      fold (scatter idx vals out). now rewrite length_scatter.
    + assert (j ≠ i).
      { intros ->. apply Hj. eapply list_elem_of_lookup_2, Hp. }
      rewrite list_lookup_insert_ne by done.
      apply IH; auto with lia.
Qed.

Lemma take_rows_total (idx : list nat) (col : list A) :
  Forall (λ i, (i < length col)%nat) idx →
  length (take_rows idx col) = length idx.
Proof.
  unfold take_rows.
  induction 1 as [|i idx Hi _ IH]; simpl; auto.
  destruct (lookup_lt_is_Some_2 col i Hi) as [x ->]. simpl. now f_equal.
Qed.

Lemma take_rows_take (q : nat) (idx : list nat) (col : list A) :
  Forall (λ i, (i < length col)%nat) idx →
  take q (take_rows idx col) = take_rows (take q idx) col.
Proof.
  unfold take_rows. intros H. revert q.
  induction H as [|i idx Hi _ IH]; intros q; simpl.
  - now rewrite !take_nil.
  - destruct (lookup_lt_is_Some_2 col i Hi) as [x Hx].
    destruct q as [|q]; simpl; auto.
    rewrite Hx. simpl. now f_equal.
Qed.

Lemma take_rows_fmap {B} (g : A → B) (idx : list nat) (col : list A) :
  take_rows idx (g <$> col) = g <$> take_rows idx col.
Proof.
  unfold take_rows.
  induction idx as [|i idx IH]; simpl; auto.
  rewrite list_lookup_fmap.
  destruct (col !! i); simpl; [f_equal|]; apply IH.
Qed.

(** Taking the rows whose position passes a test is filtering the rows
    themselves, on every prefix. *)
Lemma take_rows_filter_seq (P' : nat → Prop) `{!∀ i, Decision (P' i)}
    (P : A → Prop) `{!∀ x, Decision (P x)} (col : list A) (m : nat) :
  (∀ i x, col !! i = Some x → P' i ↔ P x) →
  (m ≤ length col)%nat →
  take_rows (filter P' (seq 0 m)) col = filter P (take m col).
Proof.
  intros HP. unfold take_rows.
  induction m as [|m IH]; intros Hm.
  - reflexivity.
  - destruct (lookup_lt_is_Some_2 col m) as [x Hx]; [lia|].
    rewrite seq_S, filter_app, omap_app, IH by lia.
    rewrite (take_S_r _ _ _ Hx), filter_app. f_equal. simpl.
    rewrite !filter_cons, !filter_nil.
    destruct (decide (P' m)) as [H1|H1], (decide (P x)) as [H2|H2];
      simpl; rewrite ?Hx; try reflexivity.
    + destruct H2. now apply (HP m x Hx).
    + destruct H1. now apply (HP m x Hx).
Qed.

End ListFacts.

Lemma elem_of_group_positions (keys : list string) (k : string) (i : nat) :
  i ∈ group_positions keys k ↔ keys !! i = Some k.
Proof.
  unfold group_positions. rewrite list_elem_of_filter, elem_of_seq.
  split; [tauto|]. intros H; split; [done|].
  apply lookup_lt_Some in H. lia.
Qed.

Lemma NoDup_group_positions (keys : list string) (k : string) :
  NoDup (group_positions keys k).
Proof. apply NoDup_filter, NoDup_seq. Qed.

Lemma group_positions_in_range (keys : list string) (k : string) (n : nat) :
  length keys = n →
  Forall (λ i, (i < n)%nat) (group_positions keys k).
Proof.
  intros <-. apply Forall_forall. intros i Hi.
  apply elem_of_group_positions, lookup_lt_Some in Hi. done.
Qed.

(** The group's positions up to row [i] are the positions up to [i]
    that carry the key. *)
Lemma group_positions_prefix (keys : list string) (k : string) (p i : nat) :
  group_positions keys k !! p = Some i →
  take (S p) (group_positions keys k)
  = filter (λ j, keys !! j = Some k) (seq 0 (S i)).
Proof.
  intros Hp.
  assert (Hk : keys !! i = Some k).
  { apply elem_of_group_positions. eapply list_elem_of_lookup_2, Hp. }
  pose proof (lookup_lt_Some _ _ _ Hk) as Hlt.
  pose proof (NoDup_group_positions keys k) as Hnd.
  assert (Hsplit : ∃ B, group_positions keys k
      = filter (λ j, keys !! j = Some k) (seq 0 (S i)) ++ B).
  { unfold group_positions.
    replace (length keys) with (S i + (length keys - S i))%nat by lia.
    rewrite seq_app, filter_app. eauto. }
  destruct Hsplit as [B HB].
  assert (HA : filter (λ j, keys !! j = Some k) (seq 0 (S i))
      = filter (λ j, keys !! j = Some k) (seq 0 i) ++ [i]).
  { rewrite seq_S, filter_app. simpl. now rewrite filter_cons_True. }
  rewrite HB in *. rewrite HA in *.
  set (A := filter _ (seq 0 i)) in *. clearbody A.
  assert (Hi : ((A ++ [i]) ++ B) !! length A = Some i).
  { rewrite <- app_assoc. now apply (list_lookup_middle A B i). }
  rewrite (NoDup_lookup _ _ _ _ Hnd Hp Hi).
  replace (S (length A)) with (length (A ++ [i])).
  - apply take_app_length.
  - rewrite length_app. simpl. lia.
Qed.

Lemma length_rolling (w mp : nat) (agg : list R → float) (xs : list R) :
  length (rolling w mp agg xs) = length xs.
Proof. unfold rolling. now rewrite length_fmap, length_seq. Qed.

Lemma rolling_lookup (w mp : nat) (agg : list R → float) (xs : list R) (p : nat) :
  (p < length xs)%nat →
  rolling w mp agg xs !! p
  = Some (if (length (window w xs p) <? mp)%nat then NaN
          else agg (window w xs p)).
Proof.
  intros Hp. unfold rolling.
  rewrite list_lookup_fmap, lookup_seq_lt by done. reflexivity.
Qed.

Section Transform.

Variable f : list R → list float.
Variable keys : list string.
Variable col : list R.

Lemma length_transform_groups (ks : list string) (out : list float) :
  length (foldr (transform_group f col) out ((λ k, (k, group_positions keys k)) <$> ks))
  = length out.
Proof.
  induction ks as [|k ks IH]; simpl; auto.
  unfold transform_group at 1. now rewrite length_scatter.
Qed.

Lemma transform_groups_lookup (ks : list string) (out : list float)
    (i p : nat) (k : string) :
  k ∈ ks →
  group_positions keys k !! p = Some i →
  (p < length (f (take_rows (group_positions keys k) col)))%nat →
  (i < length out)%nat →
  foldr (transform_group f col) out ((λ k, (k, group_positions keys k)) <$> ks) !! i
  = f (take_rows (group_positions keys k) col) !! p.
Proof.
  intros Hk Hp Hlen Hi.
  assert (Hki : keys !! i = Some k).
  { apply elem_of_group_positions. eapply list_elem_of_lookup_2, Hp. }
  induction ks as [|k0 ks IH]; [by apply elem_of_nil in Hk|].
  simpl. unfold transform_group at 1. simpl.
  destruct (decide (k0 = k)) as [->|Hne].
  - apply scatter_lookup_in; auto using NoDup_group_positions.
    now rewrite length_transform_groups.
  - rewrite scatter_lookup_notin.
    + apply IH. apply elem_of_cons in Hk as [->|]; done.
    + rewrite elem_of_group_positions. congruence.
Qed.

Lemma length_transform : length (transform f keys col) = length col.
Proof.
  unfold transform, groupby.
  now rewrite (length_transform_groups (remove_dups keys)), length_replicate.
Qed.

Lemma transform_lookup (i p : nat) (k : string) :
  (∀ xs, length (f xs) = length xs) →
  length keys = length col →
  group_positions keys k !! p = Some i →
  transform f keys col !! i
  = f (take_rows (group_positions keys k) col) !! p.
Proof.
  intros Hf Hlen Hp.
  assert (Hki : keys !! i = Some k).
  { apply elem_of_group_positions. eapply list_elem_of_lookup_2, Hp. }
  unfold transform, groupby.
  apply (transform_groups_lookup (remove_dups keys)); auto.
  - apply elem_of_remove_dups. eapply list_elem_of_lookup_2, Hki.
  - rewrite Hf, take_rows_total.
    + eapply lookup_lt_Some, Hp.
    + now apply group_positions_in_range.
  - rewrite length_replicate, <- Hlen. eapply lookup_lt_Some, Hki.
Qed.

End Transform.

(** ** The rolling columns against their specification *)

Lemma season_lookup_iff (rs : list Row) (k : string) (i : nat) (r : Row) :
  rs !! i = Some r → (season <$> rs) !! i = Some k ↔ season r = k.
Proof.
  intros Hr. rewrite list_lookup_fmap, Hr. simpl.
  split; [now intros [= ->] | now intros ->].
Qed.

Lemma length_season_partition_upto (rs : list Row) (i p : nat) (r : Row) :
  rs !! i = Some r →
  group_positions (season <$> rs) (season r) !! p = Some i →
  length (Spec.season_partition_upto rs i) = S p
  ∧ take (S p) (take_rows (group_positions (season <$> rs) (season r))
                          (temperature <$> rs))
    = Spec.season_partition_upto rs i.
Proof.
  intros Hr Hp.
  pose proof (lookup_lt_Some _ _ _ Hr) as Hi.
  pose proof (lookup_lt_Some _ _ _ Hp) as Hplen.
  assert (Hrange : Forall (λ j, (j < length rs)%nat)
                     (group_positions (season <$> rs) (season r))).
  { apply group_positions_in_range. now rewrite length_fmap. }
  assert (Heq : take (S p) (take_rows (group_positions (season <$> rs) (season r))
                          (temperature <$> rs))
    = Spec.season_partition_upto rs i).
  { unfold Spec.season_partition_upto. rewrite Hr.
    rewrite take_rows_fmap, <- fmap_take, take_rows_take by done.
    rewrite (group_positions_prefix _ _ _ _ Hp). f_equal.
    apply take_rows_filter_seq; [|lia].
    intros j x Hx. now apply season_lookup_iff. }
  split; [|done].
  rewrite <- Heq, length_take, take_rows_total.
  - lia.
  - now rewrite length_fmap.
Qed.

Lemma rolling_transform_spec (agg : list R → float) (rs : list Row)
    (i : nat) (r : Row) :
  rs !! i = Some r →
  transform (rolling 30 1 agg) (season <$> rs) (temperature <$> rs) !! i
  = Some (agg (Spec.trailing 30 (Spec.season_partition_upto rs i))).
Proof.
  intros Hr.
  assert (Hin : i ∈ group_positions (season <$> rs) (season r)).
  { apply elem_of_group_positions. now apply season_lookup_iff with r. }
  apply list_elem_of_lookup_1 in Hin as [p Hp].
  destruct (length_season_partition_upto rs i p r Hr Hp) as [Hlen Htake].
  rewrite (transform_lookup _ _ _ i p (season r));
    [|apply length_rolling|now rewrite !length_fmap|done].
  set (xs := take_rows _ _) in *.
  assert (Hpx : (p < length xs)%nat).
  { apply (f_equal length) in Htake. rewrite length_take, Hlen in Htake. lia. }
  rewrite rolling_lookup by done. f_equal.
  unfold window. rewrite Htake.
  unfold Spec.trailing. rewrite Hlen.
  set (part := Spec.season_partition_upto rs i) in *.
  assert ((length (drop (S p - 30) part) <? 1)%nat = false) as ->; [|done].
  apply Nat.ltb_ge. rewrite length_drop. lia.
Qed.

Lemma anomaly_row_true_iff (temp : R) (rmean rstd : float) :
  anomaly_row temp rmean rstd = true
  ↔ Gt (Fin temp) (add rmean (mul (Fin 2) rstd))
    ∨ Lt (Fin temp) (sub rmean (mul (Fin 2) rstd)).
Proof.
  unfold anomaly_row. rewrite orb_true_iff.
  destruct rmean as [|m], rstd as [|s]; simpl;
    rewrite ?bool_decide_eq_true; intuition discriminate.
Qed.

Lemma anomaly_lookup (rs : list Row) (rmean rstd : list float)
    (i : nat) (r : Row) (m s : float) :
  rs !! i = Some r → rmean !! i = Some m → rstd !! i = Some s →
  anomaly rs rmean rstd !! i = Some (anomaly_row (temperature r) m s).
Proof.
  intros Hr Hm Hs. unfold anomaly.
  apply lookup_zip_with_Some. exists r, (m, s).
  split_and!; [done|done|]. apply lookup_zip_with_Some. eauto.
Qed.

(** The three columns that one call leaves in the caller's frame. *)
Lemma analyze_columns (city_df : DataFrame) (selected_city : string) :
  let df' := (analyze_city_temperature city_df selected_city).1 in
  rows df' = rows city_df
  ∧ col_rolling_mean df' = Some (rolling_mean city_df)
  ∧ col_rolling_std df' = Some (rolling_std city_df)
  ∧ col_anomaly df'
    = Some (anomaly (rows city_df) (rolling_mean city_df) (rolling_std city_df)).
Proof. done. Qed.

Lemma rolling_mean_lookup (city_df : DataFrame) (i : nat) (r : Row) :
  rows city_df !! i = Some r →
  rolling_mean city_df !! i = Some (Spec.rolling_mean (rows city_df) i).
Proof. apply rolling_transform_spec. Qed.

Lemma rolling_std_lookup (city_df : DataFrame) (i : nat) (r : Row) :
  rows city_df !! i = Some r →
  rolling_std city_df !! i = Some (Spec.rolling_std (rows city_df) i).
Proof. apply rolling_transform_spec. Qed.

(** C1.  For every record of the input series, the flag that the analysis
    writes for it is true exactly when its temperature is strictly above
    [rolling_mean + 2 * rolling_std] or strictly below
    [rolling_mean - 2 * rolling_std], where the two rolling values of the
    record are the mean and the sample standard deviation of the last (up
    to) 30 records, the record included, among the records of its own
    season taken in row order. *)
Theorem anomaly_flag_iff_outside_rolling_band
    (city_df : DataFrame) (selected_city : string) (i : nat) (r : Row) :
  rows city_df !! i = Some r →
  let df' := (analyze_city_temperature city_df selected_city).1 in
  let rmean := Spec.rolling_mean (rows city_df) i in
  let rstd := Spec.rolling_std (rows city_df) i in
  ∃ flag : bool,
    (col_rolling_mean df' ≫= (.!! i)) = Some rmean
    ∧ (col_rolling_std df' ≫= (.!! i)) = Some rstd
    ∧ (col_anomaly df' ≫= (.!! i)) = Some flag
    ∧ (flag = true
       ↔ Gt (Fin (temperature r)) (add rmean (mul (Fin 2) rstd))
         ∨ Lt (Fin (temperature r)) (sub rmean (mul (Fin 2) rstd))).
Proof.
  intros Hr df' rmean rstd.
  destruct (analyze_columns city_df selected_city) as (_ & Hm & Hs & Ha).
  fold df' in Hm, Hs, Ha.
  exists (anomaly_row (temperature r) rmean rstd).
  rewrite Hm, Hs, Ha. simpl.
  pose proof (rolling_mean_lookup city_df i r Hr) as Hmi.
  pose proof (rolling_std_lookup city_df i r Hr) as Hsi.
  split_and!; [done|done| |apply anomaly_row_true_iff].
  now apply anomaly_lookup.
Qed.

Lemma anomaly_flag_iff_outside_rolling_band_witness :
  rows Samples.two_winter_days !! 1%nat = Some (Samples.day 1 3 "winter")
  ∧ let df' := (analyze_city_temperature Samples.two_winter_days "Berlin").1 in
    let rmean := Spec.rolling_mean (rows Samples.two_winter_days) 1 in
    let rstd := Spec.rolling_std (rows Samples.two_winter_days) 1 in
    ∃ flag : bool,
      (col_rolling_mean df' ≫= (.!! 1%nat)) = Some rmean
      ∧ (col_rolling_std df' ≫= (.!! 1%nat)) = Some rstd
      ∧ (col_anomaly df' ≫= (.!! 1%nat)) = Some flag
      ∧ (flag = true
         ↔ Gt (Fin 3) (add rmean (mul (Fin 2) rstd))
           ∨ Lt (Fin 3) (sub rmean (mul (Fin 2) rstd))).
Proof.
  split; [reflexivity|].
  apply (anomaly_flag_iff_outside_rolling_band
           Samples.two_winter_days "Berlin" 1 (Samples.day 1 3 "winter")).
  reflexivity.
Defined.

(** ** The first record of a season *)





(** ** The seasonal profile *)

Lemma group_temperatures (rs : list Row) (k : string) :
  take_rows (group_positions (season <$> rs) k) (temperature <$> rs)
  = Spec.season_temperatures rs k.
Proof.
  unfold Spec.season_temperatures, group_positions.
  rewrite take_rows_fmap, length_fmap. f_equal.
  rewrite <- (take_ge rs (length rs)) at 3 by lia.
  apply take_rows_filter_seq; [|lia].
  intros j x Hx. now apply season_lookup_iff.
Qed.

Lemma season_profile_lookup (city_df : DataFrame) (k : string) :
  season_profile city_df !! k
  = if decide (k ∈ seasons city_df)
    then Some (mean (Spec.season_temperatures (rows city_df) k),
               std (Spec.season_temperatures (rows city_df) k))
    else None.
Proof.
  unfold season_profile, agg_mean_std, groupby, seasons, temperatures.
  rewrite <- list_fmap_compose.
  set (entry := _ ∘ _).
  assert (Hfst : (entry <$> remove_dups (season <$> rows city_df)).*1
                 = remove_dups (season <$> rows city_df)).
  { rewrite <- list_fmap_compose. apply list_fmap_id. }
  destruct (decide _) as [Hin|Hout].
  - apply elem_of_list_to_map_1.
    + rewrite Hfst. apply NoDup_remove_dups.
    + rewrite <- group_temperatures.
      apply (list_elem_of_fmap_2 entry), elem_of_remove_dups, Hin.
  - apply not_elem_of_list_to_map_1.
    rewrite Hfst, elem_of_remove_dups. exact Hout.
Qed.

(** C5.  The index of the seasonal profile is the set of season labels
    that occur in the series; a season that occurs has the mean and the
    sample standard deviation of all its temperatures as its entry, a
    season that does not occur has no entry. *)
Theorem season_profile_keys_are_present_seasons (city_df : DataFrame) :
  dom (season_profile city_df) = list_to_set (seasons city_df)
  ∧ ∀ k : string,
      (k ∈ seasons city_df →
       season_profile city_df !! k
       = Some (mean (Spec.season_temperatures (rows city_df) k),
               std (Spec.season_temperatures (rows city_df) k)))
      ∧ (k ∉ seasons city_df → season_profile city_df !! k = None).
Proof.
  split.
  - apply set_eq. intros k.
    rewrite elem_of_dom, elem_of_list_to_set, season_profile_lookup.
    destruct (decide _) as [Hin|Hout].
    + split; [done|]. by eexists.
    + split; [|done]. by intros [? ?].
  - intros k. rewrite season_profile_lookup.
    split; intros H; destruct (decide _); done.
Qed.

(** Checking a reading against a season that no record of the series
    carries raises [KeyError] for that season. *)
Lemma absent_season_lookup
    (city_df : DataFrame) (current_temp : float) (current_season : string) :
  current_season ∉ seasons city_df →
  season_profile city_df !! current_season = None
  ∧ loc (season_profile city_df) current_season = Raise (KeyError current_season)
  ∧ check_current_reading current_temp (season_profile city_df) current_season
    = Raise (KeyError current_season).
Proof.
  intros Habsent. unfold check_current_reading, loc.
  rewrite season_profile_lookup.
  destruct (decide _); done.
Qed.

(** C4 (as the code has it).  When the season of the current month is
    carried by no record of the series, the profile has no entry for
    it, neither a default one; the lookup raises [KeyError] for that
    season and no range is computed.  The script catches the exception
    nowhere: the run has shown the current temperature and ends there
    with the uncaught [KeyError], without a verdict and without a
    message of its own about the season. *)
Theorem absent_season_ends_the_run_uncaught
    (city_df : DataFrame) (current_temp : float) (month : nat)
    (label : string) :
  season_map month = Some label →
  label ∉ seasons city_df →
  season_profile city_df !! label = None
  ∧ loc (season_profile city_df) label = Raise (KeyError label)
  ∧ check_current_reading current_temp (season_profile city_df) label
    = Raise (KeyError label)
  ∧ live_reading_section current_temp month (season_profile city_df)
    = ([StCurrentTemperature current_temp], Uncaught (KeyError label)).
Proof.
  intros Hmonth Habsent.
  destruct (absent_season_lookup city_df current_temp label Habsent)
    as (Hnone & Hloc & Hcheck).
  split_and!; [done|done|done|].
  unfold live_reading_section, check_reading_in_month, current_season.
  rewrite Hmonth. cbn [bind]. now rewrite Hcheck.
Qed.

Lemma absent_season_ends_the_run_uncaught_witness :
  season_map 7 = Some "summer"
  ∧ ("summer" ∉ seasons Samples.two_winter_days)
  ∧ season_profile Samples.two_winter_days !! "summer" = None
  ∧ loc (season_profile Samples.two_winter_days) "summer"
    = Raise (KeyError "summer")
  ∧ check_current_reading (Fin 20) (season_profile Samples.two_winter_days)
      "summer"
    = Raise (KeyError "summer")
  ∧ live_reading_section (Fin 20) 7 (season_profile Samples.two_winter_days)
    = ([StCurrentTemperature (Fin 20)], Uncaught (KeyError "summer")).
Proof.
  assert (H1 : season_map 7 = Some "summer") by reflexivity.
  assert (H2 : "summer" ∉ seasons Samples.two_winter_days).
  { apply not_elem_of_cons. split; [discriminate|].
    apply not_elem_of_cons. split; [discriminate|]. apply not_elem_of_nil. }
  split; [exact H1|]. split; [exact H2|].
  apply (absent_season_ends_the_run_uncaught Samples.two_winter_days (Fin 20)
           7 "summer" H1 H2).
Defined.

(** C4 as the specification words it does not hold: a reading taken in
    July against a series of winter days is not answered by a
    season-not-found condition of the application; the run ends with
    the [KeyError] of the library, uncaught. *)
Lemma absent_season_is_an_uncaught_key_error :
  live_reading_section (Fin 20) 7 (season_profile Samples.two_winter_days)
  = ([StCurrentTemperature (Fin 20)], Uncaught (KeyError "summer")).
Proof.
  assert (Hnone : season_profile Samples.two_winter_days !! "summer" = None).
  { rewrite season_profile_lookup. apply decide_False.
    apply not_elem_of_cons. split; [discriminate|].
    apply not_elem_of_cons. split; [discriminate|]. apply not_elem_of_nil. }
  unfold live_reading_section, check_reading_in_month, current_season,
    check_current_reading, loc.
  cbn [season_map bind]. now rewrite Hnone.
Qed.

(** ** The normal range of a live reading *)

Lemma is_normal_iff (m sd t : float) :
  is_normal (normal_range m sd t) = true
  ↔ Le (sub m (mul (Fin 2) sd)) t ∧ Le t (add m (mul (Fin 2) sd)).
Proof.
  unfold normal_range. simpl. rewrite andb_true_iff.
  destruct m, sd, t; simpl; rewrite ?bool_decide_eq_true;
    intuition discriminate.
Qed.

Lemma std_nonneg (xs : list R) (sd : R) : std xs = Fin sd → 0 <= sd.
Proof.
  unfold std. destruct (_ <? _)%nat; [discriminate|].
  intros [= <-]. apply sqrt_pos.
Qed.

Lemma profile_std_nonneg (city_df : DataFrame) (k : string)
    (m : float) (sd : R) :
  season_profile city_df !! k = Some (m, Fin sd) → 0 <= sd.
Proof.
  rewrite season_profile_lookup. destruct (decide _); [|discriminate].
  intros [= _ Hsd]. eapply std_nonneg, Hsd.
Qed.

(** C8.  For every entry [(mean, std)] of a seasonal profile and every
    current temperature the check computes [lower = mean - 2 * std] and
    [upper = mean + 2 * std] and reports [is_normal] exactly when
    [lower <= current_temp] and [current_temp <= upper]; a reading equal
    to the upper bound is normal, a reading above it by any positive
    amount is not. *)
Theorem normal_range_is_inclusive
    (city_df : DataFrame) (k : string) (m sd current_temp : float) :
  season_profile city_df !! k = Some (m, sd) →
  ∃ c : ReadingCheck,
    check_current_reading current_temp (season_profile city_df) k = Ok c
    ∧ mean_temp c = m ∧ std_temp c = sd
    ∧ lower_bound c = sub m (mul (Fin 2) sd)
    ∧ upper_bound c = add m (mul (Fin 2) sd)
    ∧ (is_normal c = true
       ↔ Le (lower_bound c) current_temp ∧ Le current_temp (upper_bound c))
    ∧ ∀ u : R, upper_bound c = Fin u →
        is_normal (normal_range m sd (Fin u)) = true
        ∧ ∀ ε : R, 0 < ε → is_normal (normal_range m sd (Fin (u + ε))) = false.
Proof.
  intros Hentry.
  exists (normal_range m sd current_temp).
  unfold check_current_reading, loc. rewrite Hentry. cbn [bind fst snd].
  split_and!; try reflexivity.
  - apply (is_normal_iff m sd current_temp).
  - intros u Hu. cbn [upper_bound normal_range] in Hu.
    destruct m as [|m], sd as [|sd]; try discriminate.
    pose proof (profile_std_nonneg _ _ _ _ Hentry) as Hsd.
    injection Hu as <-.
    split.
    + apply is_normal_iff. simpl. lra.
    + intros ε Hε. apply not_true_is_false. rewrite is_normal_iff. simpl. lra.
Qed.

Lemma normal_range_is_inclusive_witness :
  let m := mean (Spec.season_temperatures (rows Samples.two_winter_days) "winter") in
  let sd := std (Spec.season_temperatures (rows Samples.two_winter_days) "winter") in
  season_profile Samples.two_winter_days !! "winter" = Some (m, sd)
  ∧ ∃ c : ReadingCheck,
      check_current_reading (Fin 2) (season_profile Samples.two_winter_days)
        "winter" = Ok c
      ∧ mean_temp c = m ∧ std_temp c = sd
      ∧ lower_bound c = sub m (mul (Fin 2) sd)
      ∧ upper_bound c = add m (mul (Fin 2) sd)
      ∧ (is_normal c = true
         ↔ Le (lower_bound c) (Fin 2) ∧ Le (Fin 2) (upper_bound c))
      ∧ ∀ u : R, upper_bound c = Fin u →
          is_normal (normal_range m sd (Fin u)) = true
          ∧ ∀ ε : R, 0 < ε →
              is_normal (normal_range m sd (Fin (u + ε))) = false.
Proof.
  intros m sd.
  assert (H : season_profile Samples.two_winter_days !! "winter" = Some (m, sd)).
  { rewrite season_profile_lookup. apply decide_True.
    apply elem_of_cons. now left. }
  split; [exact H|].
  apply (normal_range_is_inclusive Samples.two_winter_days "winter" m sd
           (Fin 2) H).
Defined.

(** ** Descriptive statistics *)

Lemma foldr_Rmin_le (x : R) (xs : list R) :
  foldr Rmin x xs <= x ∧ Forall (λ y, foldr Rmin x xs <= y) xs.
Proof.
  induction xs as [|y ys [IH1 IH2]]; simpl.
  - split; [lra | constructor].
  - pose proof (Rmin_l y (foldr Rmin x ys)).
    pose proof (Rmin_r y (foldr Rmin x ys)).
    split; [lra|]. constructor; [lra|].
    eapply Forall_impl; [exact IH2|]. simpl. intros; lra.
Qed.

Lemma foldr_Rmax_ge (x : R) (xs : list R) :
  x <= foldr Rmax x xs ∧ Forall (λ y, y <= foldr Rmax x xs) xs.
Proof.
  induction xs as [|y ys [IH1 IH2]]; simpl.
  - split; [lra | constructor].
  - pose proof (Rmax_l y (foldr Rmax x ys)).
    pose proof (Rmax_r y (foldr Rmax x ys)).
    split; [lra|]. constructor; [lra|].
    eapply Forall_impl; [exact IH2|]. simpl. intros; lra.
Qed.

Lemma sum_bounds (lo hi : R) (xs : list R) :
  Forall (λ y, lo <= y <= hi) xs →
  INR (length xs) * lo <= sum xs <= INR (length xs) * hi.
Proof.
  induction 1 as [|y ys Hy _ IH].
  - simpl. lra.
  - change (length (y :: ys)) with (S (length ys)). rewrite S_INR.
    change (sum (y :: ys)) with (y + sum ys). nra.
Qed.

Lemma mean_between_min_max (xs : list R) :
  xs ≠ [] →
  ∃ a lo hi, mean xs = Fin a ∧ min xs = Fin lo ∧ max xs = Fin hi
             ∧ lo <= a <= hi.
Proof.
  destruct xs as [|x xs]; [done|]. intros _.
  eexists _, _, _. split_and!; try reflexivity.
  - destruct (foldr_Rmin_le x xs) as [H1 H2].
    destruct (foldr_Rmax_ge x xs) as [H3 H4].
    set (lo := foldr Rmin x xs) in *. set (hi := foldr Rmax x xs) in *.
    assert (Hall : Forall (λ y, lo <= y <= hi) (x :: xs)).
    { constructor; [lra|]. apply Forall_and. split; assumption. }
    apply sum_bounds in Hall.
    assert (Hn : 0 < INR (length (x :: xs))) by (apply lt_0_INR; simpl; lia).
    apply Rmult_le_reg_r with (INR (length (x :: xs))); [done|].
    unfold Rdiv. rewrite Rmult_assoc, Rinv_l by lra. lra.
  - destruct (foldr_Rmin_le x xs) as [H1 H2].
    destruct (foldr_Rmax_ge x xs) as [H3 H4].
    set (lo := foldr Rmin x xs) in *. set (hi := foldr Rmax x xs) in *.
    assert (Hall : Forall (λ y, lo <= y <= hi) (x :: xs)).
    { constructor; [lra|]. apply Forall_and. split; assumption. }
    apply sum_bounds in Hall.
    assert (Hn : 0 < INR (length (x :: xs))) by (apply lt_0_INR; simpl; lia).
    apply Rmult_le_reg_r with (INR (length (x :: xs))); [done|].
    unfold Rdiv. rewrite Rmult_assoc, Rinv_l by lra. lra.
Qed.

(** C6 (as the code has it).  On an empty series the three descriptive
    statistics are computed without any failure and each of them is NaN;
    the call as a whole then stops with a [ValueError], raised by the
    trend fit, after the caller's frame has received its new columns. *)
Theorem empty_series_statistics_are_nan
    (city_df : DataFrame) (selected_city : string) :
  rows city_df = [] →
  avg_temp city_df = NaN ∧ min_temp city_df = NaN ∧ max_temp city_df = NaN
  ∧ ∃ msg, (analyze_city_temperature city_df selected_city).2
           = Raise (ValueError msg).
Proof.
  intros Hempty.
  unfold avg_temp, min_temp, max_temp, temperatures,
    analyze_city_temperature, trend, temperatures.
  simpl. rewrite Hempty. simpl. split_and!; eauto.
Qed.

Lemma empty_series_statistics_are_nan_witness :
  rows Samples.no_days = []
  ∧ avg_temp Samples.no_days = NaN ∧ min_temp Samples.no_days = NaN
  ∧ max_temp Samples.no_days = NaN
  ∧ ∃ msg, (analyze_city_temperature Samples.no_days "Berlin").2
           = Raise (ValueError msg).
Proof.
  split; [reflexivity|].
  apply (empty_series_statistics_are_nan Samples.no_days "Berlin").
  reflexivity.
Defined.

(** C6 as the specification words it does not hold: the statistics of
    the empty series are values, not a failure. *)
Lemma empty_series_statistics_do_not_fail :
  rows Samples.no_days = []
  ∧ descriptive_statistics Samples.no_days = Ok (NaN, NaN, NaN)
  ∧ ¬ raises (descriptive_statistics Samples.no_days).
Proof. split_and!; [reflexivity|reflexivity|]. intros [e He]. discriminate. Qed.

(** ** The trend *)

Lemma sum_constant (c : R) (xs : list R) :
  Forall (λ x, x = c) xs → sum xs = INR (length xs) * c.
Proof.
  induction 1 as [|x xs -> _ IH].
  - simpl. lra.
  - change (length (c :: xs)) with (S (length xs)). rewrite S_INR.
    change (sum (c :: xs)) with (c + sum xs). lra.
Qed.

Lemma mean_constant (c : R) (xs : list R) :
  xs ≠ [] → Forall (λ x, x = c) xs → sum xs / INR (length xs) = c.
Proof.
  intros Hne Hall. rewrite (sum_constant c) by done.
  assert (INR (length xs) ≠ 0).
  { apply not_0_INR. destruct xs; [done|simpl; lia]. }
  now field.
Qed.


Lemma sum_zip_with_zero (g : R → R → R) (xs ys : list R) :
  Forall (λ y, ∀ x, g x y = 0) ys → sum (zip_with g xs ys) = 0.
Proof.
  intros Hall. revert xs.
  induction Hall as [|y ys Hy _ IH]; intros [|x xs]; try done.
  change (sum (zip_with g (x :: xs) (y :: ys)))
    with (g x y + sum (zip_with g xs ys)).
  rewrite Hy, IH. lra.
Qed.


(** A response that does not vary gives slope [0]. *)
Lemma fit_coef_constant_response (c : R) (xs ys : list R) :
  xs ≠ [] → length xs = length ys → Forall (λ y, y = c) ys →
  Sklearn.fit_coef xs ys = Ok 0.
Proof.
  intros Hne Hlen Hall. unfold Sklearn.fit_coef.
  destruct xs as [|x xs'] eqn:E; [done|]. rewrite <- E in *.
  cbv zeta. rewrite Hlen, (mean_constant c ys); [|destruct ys; subst; done|done].
  rewrite sum_zip_with_zero.
  - destruct (decide _); [done|]. f_equal. unfold Rdiv. apply Rmult_0_l.
  - eapply Forall_impl; [exact Hall|]. simpl. intros ? -> ?. lra.
Qed.





(** ** The sign of the fitted slope *)

Section PointSums.

Import Points.

Lemma sum_cons (x : R) (xs : list R) : sum (x :: xs) = x + sum xs.
Proof. reflexivity. Qed.

Lemma sum_fmap_nonneg {A} (g : A → R) (l : list A) :
  (∀ x, x ∈ l → 0 <= g x) → 0 <= sum (g <$> l).
Proof.
  induction l as [|x l IH]; intros Hall.
  - simpl. lra.
  - rewrite fmap_cons, sum_cons.
    assert (0 <= g x) by (apply Hall, elem_of_cons; now left).
    assert (0 <= sum (g <$> l)).
    { apply IH. intros y Hy. apply Hall, elem_of_cons. now right. }
    lra.
Qed.

Lemma sum_fmap_pos {A} (g : A → R) (l : list A) (x0 : A) :
  (∀ x, x ∈ l → 0 <= g x) → x0 ∈ l → 0 < g x0 → 0 < sum (g <$> l).
Proof.
  induction l as [|x l IH]; intros Hall Hin Hpos.
  - by apply elem_of_nil in Hin.
  - rewrite fmap_cons, sum_cons.
    assert (0 <= g x) by (apply Hall, elem_of_cons; now left).
    assert (Hl : ∀ y, y ∈ l → 0 <= g y).
    { intros y Hy. apply Hall, elem_of_cons. now right. }
    apply elem_of_cons in Hin as [->|Hin].
    + pose proof (sum_fmap_nonneg g l Hl). lra.
    + pose proof (IH Hl Hin Hpos). lra.
Qed.

Lemma sum_fmap_ext {A} (g h : A → R) (l : list A) :
  (∀ x, g x = h x) → sum (g <$> l) = sum (h <$> l).
Proof. intros Hgh. f_equal. now apply list_fmap_ext. Qed.

(** Products of deviations from any two constants. *)
Lemma sum_deviations (a b : R) (ps : list (R * R)) :
  sum ((λ p, (p.1 - a) * (p.2 - b)) <$> ps)
  = sum_xy ps - a * sum_y ps - b * sum_x ps + INR (length ps) * a * b.
Proof.
  unfold sum_xy, sum_x, sum_y.
  induction ps as [|p ps IH].
  - simpl. lra.
  - rewrite !fmap_cons, !sum_cons, IH.
    change (length (p :: ps)) with (S (length ps)). rewrite S_INR. lra.
Qed.

Lemma sum_linear (c0 c1 c2 c3 : R) (l : list (R * R)) :
  sum ((λ p, c0 - p.1 * c2 - p.2 * c1 + c3 * p.1 * p.2) <$> l)
  = INR (length l) * c0 - sum_x l * c2 - sum_y l * c1 + c3 * sum_xy l.
Proof.
  unfold sum_xy, sum_x, sum_y.
  induction l as [|p l IH].
  - simpl. lra.
  - rewrite !fmap_cons, !sum_cons, IH.
    change (length (p :: l)) with (S (length l)). rewrite S_INR. lra.
Qed.

Lemma cross_covariance (ps : list (R * R)) : cross ps = 2 * covariance_n ps.
Proof.
  unfold cross, covariance_n.
  rewrite (sum_fmap_ext _
    (λ p, sum_xy ps - p.1 * sum_y ps - p.2 * sum_x ps
          + INR (length ps) * p.1 * p.2)).
  - rewrite sum_linear. lra.
  - intros p. apply sum_deviations.
Qed.

Lemma comonotone_term (ps : list (R * R)) (p q : R * R) :
  comonotone ps → p ∈ ps → q ∈ ps → 0 <= (q.1 - p.1) * (q.2 - p.2).
Proof.
  intros Hco Hp Hq.
  destruct (Rtotal_order p.1 q.1) as [Hlt|[Heq|Hgt]].
  - pose proof (Hco p q Hp Hq Hlt). nra.
  - rewrite Heq. nra.
  - pose proof (Hco q p Hq Hp Hgt). nra.
Qed.

Lemma covariance_pos (ps : list (R * R)) :
  comonotone ps → spread ps → 0 < covariance_n ps.
Proof.
  intros Hco (p0 & q0 & Hp0 & Hq0 & Hlt).
  assert (0 < cross ps); [|rewrite cross_covariance in *; lra].
  unfold cross.
  apply sum_fmap_pos with p0; [|done|].
  - intros p Hp. apply sum_fmap_nonneg.
    intros q Hq. now apply comonotone_term with ps.
  - apply sum_fmap_pos with q0; [|done|].
    + intros q Hq. now apply comonotone_term with ps.
    + pose proof (Hco p0 q0 Hp0 Hq0 Hlt). nra.
Qed.

Lemma covariance_mirror (ps : list (R * R)) :
  covariance_n (mirror <$> ps) = - covariance_n ps.
Proof.
  unfold covariance_n, sum_xy, sum_x, sum_y.
  rewrite length_fmap, <- !list_fmap_compose.
  assert (H1 : sum ((λ p, p.1 * p.2) ∘ mirror <$> ps)
               = - sum ((λ p, p.1 * p.2) <$> ps)).
  { induction ps as [|p ps IH]; [simpl; lra|].
    rewrite !fmap_cons, !sum_cons, IH. simpl. lra. }
  assert (H2 : sum (snd ∘ mirror <$> ps) = - sum (snd <$> ps)).
  { clear H1. induction ps as [|p ps IH]; [simpl; lra|].
    rewrite !fmap_cons, !sum_cons, IH. simpl. lra. }
  rewrite H1, H2.
  replace (sum (fst ∘ mirror <$> ps)) with (sum (fst <$> ps)); [lra|].
  reflexivity.
Qed.

Lemma covariance_neg (ps : list (R * R)) :
  antitone ps → spread ps → covariance_n ps < 0.
Proof.
  intros Hanti (p0 & q0 & Hp0 & Hq0 & Hlt).
  assert (0 < covariance_n (mirror <$> ps));
    [|rewrite covariance_mirror in *; lra].
  apply covariance_pos.
  - intros p' q' Hp' Hq'.
    apply list_elem_of_fmap in Hp' as (p & -> & Hp).
    apply list_elem_of_fmap in Hq' as (q & -> & Hq).
    simpl. intros H. pose proof (Hanti p q Hp Hq H). lra.
  - exists (mirror p0), (mirror q0).
    split_and!; [by apply list_elem_of_fmap_2..|done].
Qed.

End PointSums.

Section Slope.

Import Points.

Lemma zip_with_as_fmap (g : R → R → R) (xs ys : list R) :
  zip_with g xs ys = (λ p, g p.1 p.2) <$> zip xs ys.
Proof.
  revert ys. induction xs as [|x xs IH]; intros [|y ys]; try done.
  simpl. f_equal. apply IH.
Qed.

Lemma fmap_as_diagonal (g : R → R → R) (xs : list R) :
  (λ x, g x x) <$> xs = (λ p, g p.1 p.2) <$> zip xs xs.
Proof. induction xs as [|x xs IH]; [done|]. simpl. f_equal. exact IH. Qed.

Lemma sum_x_zip (xs ys : list R) :
  length xs = length ys → sum_x (zip xs ys) = sum xs.
Proof. intros H. unfold sum_x. rewrite fst_zip; [done|lia]. Qed.

Lemma sum_y_zip (xs ys : list R) :
  length xs = length ys → sum_y (zip xs ys) = sum ys.
Proof. intros H. unfold sum_y. rewrite snd_zip; [done|lia]. Qed.

(** The centred sum of products that the fit computes is the covariance
    numerator divided by the number of points. *)
Lemma centred_products (xs ys : list R) :
  xs ≠ [] → length xs = length ys →
  sum (zip_with (λ x y, (x - sum xs / INR (length xs))
                        * (y - sum ys / INR (length xs))) xs ys)
  = covariance_n (zip xs ys) / INR (length xs).
Proof.
  intros Hne Hlen.
  assert (Hn : INR (length xs) ≠ 0).
  { apply not_0_INR. destruct xs; [done|simpl; lia]. }
  rewrite zip_with_as_fmap.
  rewrite (sum_deviations (sum xs / INR (length xs))
                          (sum ys / INR (length xs)) (zip xs ys)).
  unfold covariance_n.
  rewrite sum_x_zip, sum_y_zip by done.
  rewrite length_zip, <- Hlen, Nat.min_id.
  now field.
Qed.

Lemma centred_squares (xs : list R) :
  xs ≠ [] →
  sum ((λ x, (x - sum xs / INR (length xs))
             * (x - sum xs / INR (length xs))) <$> xs)
  = covariance_n (zip xs xs) / INR (length xs).
Proof.
  intros Hne.
  rewrite <- (centred_products xs xs) by done.
  rewrite zip_with_as_fmap.
  now rewrite (fmap_as_diagonal
    (λ x y, (x - sum xs / INR (length xs)) * (y - sum xs / INR (length xs)))).
Qed.

Lemma diagonal_comonotone (xs : list R) : comonotone (zip xs xs).
Proof.
  assert (H : ∀ p, p ∈ zip xs xs → p.1 = p.2).
  { induction xs as [|x xs IH]; intros p Hp; simpl in Hp.
    - by apply elem_of_nil in Hp.
    - apply elem_of_cons in Hp as [->|Hp]; [done|by apply IH]. }
  intros p q Hp Hq. rewrite <- (H p Hp), <- (H q Hq). done.
Qed.

Lemma diagonal_spread (xs ys : list R) :
  length xs = length ys → spread (zip xs ys) → spread (zip xs xs).
Proof.
  intros Hlen (p & q & Hp & Hq & Hlt).
  assert (H : ∀ p, p ∈ zip xs ys → (p.1, p.1) ∈ zip xs xs).
  { clear. revert ys. induction xs as [|x xs IH]; intros [|y ys] p Hp;
      simpl in Hp; try by apply elem_of_nil in Hp.
    simpl. apply elem_of_cons in Hp as [->|Hp]; apply elem_of_cons.
    - now left.
    - right. eapply IH, Hp. }
  exists (p.1, p.1), (q.1, q.1). split_and!; [by apply H..|done].
Qed.

(** The fitted slope is the ratio of two covariance numerators, the
    second of which is positive as soon as the predictor varies. *)
Lemma fit_coef_ratio (xs ys : list R) :
  length xs = length ys → spread (zip xs ys) →
  0 < covariance_n (zip xs xs)
  ∧ Sklearn.fit_coef xs ys
    = Ok (covariance_n (zip xs ys) / covariance_n (zip xs xs)).
Proof.
  intros Hlen Hspread.
  assert (Hne : xs ≠ []).
  { destruct Hspread as (p & _ & Hp & _). intros ->. by apply elem_of_nil in Hp. }
  assert (Hn : 0 < INR (length xs)).
  { apply lt_0_INR. destruct xs; [done|simpl; lia]. }
  assert (Hxx : 0 < covariance_n (zip xs xs)).
  { apply covariance_pos; [apply diagonal_comonotone|].
    now apply diagonal_spread with ys. }
  split; [done|].
  unfold Sklearn.fit_coef.
  destruct xs as [|x xs'] eqn:E; [done|]. rewrite <- E in *. cbv zeta.
  rewrite centred_squares, centred_products by done.
  rewrite decide_False.
  - f_equal. field. lra.
  - apply Rgt_not_eq. apply Rdiv_lt_0_compat; lra.
Qed.

Lemma fit_coef_comonotone (xs ys : list R) :
  length xs = length ys → spread (zip xs ys) → comonotone (zip xs ys) →
  ∃ t, Sklearn.fit_coef xs ys = Ok t ∧ 0 < t.
Proof.
  intros Hlen Hspread Hco.
  destruct (fit_coef_ratio xs ys Hlen Hspread) as [Hxx ->].
  eexists. split; [done|].
  apply Rdiv_lt_0_compat; [|done]. now apply covariance_pos.
Qed.

Lemma fit_coef_antitone (xs ys : list R) :
  length xs = length ys → spread (zip xs ys) → antitone (zip xs ys) →
  ∃ t, Sklearn.fit_coef xs ys = Ok t ∧ t < 0.
Proof.
  intros Hlen Hspread Hanti.
  destruct (fit_coef_ratio xs ys Hlen Hspread) as [Hxx ->].
  eexists. split; [done|].
  pose proof (covariance_neg _ Hanti Hspread) as Hneg.
  assert (0 < - covariance_n (zip xs ys) / covariance_n (zip xs xs)).
  { apply Rdiv_lt_0_compat; lra. }
  unfold Rdiv in *. lra.
Qed.

End Slope.

Lemma points_of_rows (rs : list Row) :
  zip ((λ r, IZR (timestamp r)) <$> rs) (temperature <$> rs)
  = (λ r, (IZR (timestamp r), temperature r)) <$> rs.
Proof. induction rs as [|r rs IH]; [done|]. simpl. f_equal. exact IH. Qed.

Lemma time_moves_spread (rs : list Row) :
  Spec.time_moves rs →
  Points.spread ((λ r, (IZR (timestamp r), temperature r)) <$> rs).
Proof.
  intros (r & r' & Hr & Hr' & Hlt).
  exists (IZR (timestamp r), temperature r), (IZR (timestamp r'), temperature r').
  split_and!.
  - by apply (list_elem_of_fmap_2 (λ r, (IZR (timestamp r), temperature r))).
  - by apply (list_elem_of_fmap_2 (λ r, (IZR (timestamp r), temperature r))).
  - simpl. now apply IZR_lt.
Qed.

(** A strictly increasing series has a positive trend. *)
Lemma trend_sign_increasing (city_df : DataFrame) :
  Spec.time_moves (rows city_df) → Spec.increasing (rows city_df) →
  ∃ t, trend city_df = Ok t ∧ 0 < t.
Proof.
  intros Hmoves Hinc. unfold trend, temperatures.
  apply fit_coef_comonotone.
  - now rewrite !length_fmap.
  - rewrite points_of_rows. now apply time_moves_spread.
  - rewrite points_of_rows. intros p q Hp Hq.
    apply list_elem_of_fmap in Hp as (r & -> & Hr).
    apply list_elem_of_fmap in Hq as (r' & -> & Hr').
    simpl. intros Hlt. apply lt_IZR in Hlt. now apply Hinc.
Qed.

(** A strictly decreasing series has a negative trend. *)
Lemma trend_sign_decreasing (city_df : DataFrame) :
  Spec.time_moves (rows city_df) → Spec.decreasing (rows city_df) →
  ∃ t, trend city_df = Ok t ∧ t < 0.
Proof.
  intros Hmoves Hdec. unfold trend, temperatures.
  apply fit_coef_antitone.
  - now rewrite !length_fmap.
  - rewrite points_of_rows. now apply time_moves_spread.
  - rewrite points_of_rows. intros p q Hp Hq.
    apply list_elem_of_fmap in Hp as (r & -> & Hr).
    apply list_elem_of_fmap in Hq as (r' & -> & Hr').
    simpl. intros Hlt. apply lt_IZR in Hlt. now apply Hdec.
Qed.

Example two_winter_days_warm_up :
  ∃ t, trend Samples.two_winter_days = Ok t ∧ 0 < t.
Proof.
  apply trend_sign_increasing.
  - exists (Samples.day 0 1 "winter"), (Samples.day 1 3 "winter").
    split_and!; [repeat constructor..|done].
  - intros r r' Hr Hr' Hlt.
    apply elem_of_cons in Hr as [->|Hr];
      [|apply list_elem_of_singleton in Hr as ->];
      (apply elem_of_cons in Hr' as [->|Hr'];
       [|apply list_elem_of_singleton in Hr' as ->]);
      simpl in *; try lia; lra.
Qed.

(** ** The sign branching of the application *)

Lemma report_trend_cases (t : R) :
  (0 < t ∧ report_trend t = TrendPositive)
  ∨ (t <= 0 ∧ report_trend t = TrendNegative).
Proof.
  unfold report_trend.
  destruct (decide (t > 0)) as [Hpos|Hnpos].
  - left. rewrite bool_decide_eq_true_2 by done. split; [lra|done].
  - right. rewrite !bool_decide_eq_false_2 by done. split; [lra|done].
Qed.

(** C3 (the code at a constant series).  For a non-empty series whose
    temperature never varies the fitted trend is exactly [0]; the sign
    branching of the application then reports a negative trend, and no
    trend value at all makes it report the zero case. *)
Theorem zero_trend_is_reported_negative (city_df : DataFrame) (c : R) :
  rows city_df ≠ [] →
  Forall (λ r, temperature r = c) (rows city_df) →
  trend city_df = Ok 0
  ∧ report_trend 0 = TrendNegative
  ∧ ∀ t : R, report_trend t ≠ TrendZero.
Proof.
  intros Hne Hall. split_and!.
  - unfold trend. apply fit_coef_constant_response with c.
    + destruct (rows city_df); done.
    + unfold temperatures. now rewrite !length_fmap.
    + unfold temperatures. now apply Forall_fmap.
  - destruct (report_trend_cases 0) as [[H _]|[_ H]]; [lra|done].
  - intros t. destruct (report_trend_cases t) as [[_ ->]|[_ ->]]; done.
Qed.

Lemma zero_trend_is_reported_negative_witness :
  rows Samples.two_equal_days ≠ []
  ∧ Forall (λ r, temperature r = 5) (rows Samples.two_equal_days)
  ∧ trend Samples.two_equal_days = Ok 0
  ∧ report_trend 0 = TrendNegative
  ∧ ∀ t : R, report_trend t ≠ TrendZero.
Proof.
  assert (H1 : rows Samples.two_equal_days ≠ []) by discriminate.
  assert (H2 : Forall (λ r, temperature r = 5) (rows Samples.two_equal_days)).
  { repeat constructor. }
  split; [exact H1|]. split; [exact H2|].
  apply (zero_trend_is_reported_negative Samples.two_equal_days 5 H1 H2).
Defined.

(** ** The caller's frame *)

(** C9 (as the code has it).  One analysis call keeps the records of the
    caller's series, their order included, and writes three columns into
    the caller's frame: [rolling_mean], [rolling_std] and [anomaly],
    whatever the frame held under these names before; the two rolling
    frames of the result pair the timestamps with these columns. *)
Theorem analysis_keeps_rows_and_adds_columns
    (city_df : DataFrame) (selected_city : string) :
  let out := analyze_city_temperature city_df selected_city in
  rows out.1 = rows city_df
  ∧ col_rolling_mean out.1 = Some (rolling_mean city_df)
  ∧ col_rolling_std out.1 = Some (rolling_std city_df)
  ∧ col_anomaly out.1
    = Some (anomaly (rows city_df) (rolling_mean city_df) (rolling_std city_df))
  ∧ length (rolling_mean city_df) = length (rows city_df)
  ∧ length (rolling_std city_df) = length (rows city_df)
  ∧ length (anomaly (rows city_df) (rolling_mean city_df) (rolling_std city_df))
    = length (rows city_df)
  ∧ ∀ res, out.2 = Ok res →
      r_rolling_mean res
      = zip (timestamp <$> rows city_df) (rolling_mean city_df)
      ∧ r_rolling_std res
        = zip (timestamp <$> rows city_df) (rolling_std city_df).
Proof.
  intros out.
  assert (Hm : length (rolling_mean city_df) = length (rows city_df)).
  { unfold rolling_mean, temperatures.
    now rewrite length_transform, length_fmap. }
  assert (Hs : length (rolling_std city_df) = length (rows city_df)).
  { unfold rolling_std, temperatures.
    now rewrite length_transform, length_fmap. }
  split_and!; try done.
  - unfold anomaly. rewrite length_zip_with, length_zip_with, Hm, Hs. lia.
  - unfold out, analyze_city_temperature. simpl. intros res.
    destruct (trend _); [|discriminate]. now intros [= <-].
Qed.

(** C9 as the specification words it does not hold: the caller's frame
    is not the same after the call. *)
Lemma analysis_changes_the_frame :
  (analyze_city_temperature Samples.one_day "Berlin").1 ≠ Samples.one_day
  ∧ col_anomaly Samples.one_day = None
  ∧ col_anomaly (analyze_city_temperature Samples.one_day "Berlin").1 ≠ None.
Proof.
  split_and!; [|done|done].
  intros Heq. apply (f_equal col_anomaly) in Heq. discriminate.
Qed.

(** ** The current-temperature client *)

(** C10 (as the code has it).  [get_current_temperature] never raises.
    A failure of the request or of the JSON decoding gives an ["error"]
    dictionary with the exception's text, whatever the status code is.
    Otherwise: status 401 gives the ["cod"]/["message"] dictionary;
    status 200 gives the value found at [data['main']['temp']], or an
    ["error"] dictionary with the exception's text when that lookup
    raises; any other status gives the ["error"] dictionary with
    "Unexpected error occurred.".  A returned value that is not a
    dictionary is always the [data['main']['temp']] of a 200 response. *)
Theorem get_current_temperature_outcomes
    (http : string → string → http_outcome) (city api_key_current : string) :
  ∃ v : value,
    get_current_temperature http city api_key_current = Ok v
    ∧ match http city api_key_current with
      | RequestFails msg => v = error_dict msg
      | Response _ (NotJson msg) => v = error_dict msg
      | Response status_code (Json data) =>
          (status_code = 401%Z → v = invalid_key_dict)
          ∧ (status_code = 200%Z →
             match (let* main := getitem data "main" in getitem main "temp") with
             | Ok temp => v = temp
             | Raise e => v = error_dict (str e)
             end)
          ∧ (status_code ≠ 401%Z → status_code ≠ 200%Z →
             v = error_dict "Unexpected error occurred.")
      end
    ∧ (is_failure v = false →
       ∃ data main,
         http city api_key_current = Response 200 (Json data)
         ∧ getitem data "main" = Ok main ∧ getitem main "temp" = Ok v).
Proof.
  unfold get_current_temperature, try_block.
  destruct (http city api_key_current) as [msg|status [msg|data]];
    cbn [requests_get response_json bind fst snd str].
  - eexists. split_and!; [reflexivity|reflexivity|discriminate].
  - eexists. split_and!; [reflexivity|reflexivity|discriminate].
  - destruct (decide (status = 401%Z)) as [->|H401].
    { eexists. split_and!; [reflexivity|done|done|done|discriminate]. }
    destruct (decide (status = 200%Z)) as [->|H200].
    + destruct (getitem data "main") as [main|e] eqn:Hmain; cbn [bind].
      * destruct (getitem main "temp") as [temp|e] eqn:Htemp; cbn [bind].
        -- eexists. split_and!; [reflexivity|done|done|done|]. eauto.
        -- eexists. split_and!; [reflexivity|done|done|done|discriminate].
      * eexists. split_and!; [reflexivity|done|done|done|discriminate].
    + eexists. split_and!; [reflexivity|done|done|done|discriminate].
Qed.

(** C10 as it is worded does not hold: a 401 answer whose body is not
    JSON does not give the ["cod"]/["message"] dictionary. *)
Lemma unauthorized_plain_text_gives_error_dict :
  Samples.unauthorized_plain_text "Berlin" "key"
  = Response 401 (NotJson "Expecting value: line 1 column 1 (char 0)")
  ∧ get_current_temperature Samples.unauthorized_plain_text "Berlin" "key"
    = Ok (error_dict "Expecting value: line 1 column 1 (char 0)")
  ∧ get_current_temperature Samples.unauthorized_plain_text "Berlin" "key"
    ≠ Ok invalid_key_dict.
Proof. split_and!; [reflexivity|reflexivity|discriminate]. Qed.

Example healthy_server_reading :
  get_current_temperature Samples.healthy_server "Berlin" "key"
  = Ok (VNum (Fin 7)).
Proof. reflexivity. Qed.

(** ** The analysis on sample data *)

Ltac evaluate_frame :=
  cbv -[Rplus Rmult Rminus Rdiv Rinv IZR INR sqrt
        Rlt_dec Rle_dec Rgt_dec Req_dec_T R0 R1 Ropp].

Example rolling_mean_two_winter_days :
  rolling_mean Samples.two_winter_days = [Fin 1; Fin 2].
Proof.
  evaluate_frame. repeat f_equal; simpl; field.
Qed.

Example rolling_std_two_winter_days :
  rolling_std Samples.two_winter_days = [NaN; Fin (sqrt 2)].
Proof.
  evaluate_frame. repeat f_equal; simpl; field.
Qed.

Example spike_is_flagged :
  (col_anomaly (analyze_city_temperature Samples.spike_week "Berlin").1
     ≫= (.!! 6%nat)) = Some true.
Proof.
  assert (Hr : rows Samples.spike_week !! 6%nat = Some (Samples.day 6 10 "winter"))
    by reflexivity.
  destruct (analyze_columns Samples.spike_week "Berlin") as (_ & _ & _ & ->).
  cbn [mbind option_bind].
  rewrite (anomaly_lookup _ _ _ _ _ _ _ Hr
             (rolling_mean_lookup _ _ _ Hr) (rolling_std_lookup _ _ _ Hr)).
  f_equal. apply anomaly_row_true_iff. left.
  evaluate_frame.
  match goal with |- _ + 2 * sqrt ?v < _ =>
    replace v with (100 / 7) by (simpl; field) end.
  assert (Hsqrt : sqrt (100 / 7) < 30 / 7).
  { rewrite <- (sqrt_square (30 / 7)) by lra. apply sqrt_lt_1_alt. lra. }
  simpl. lra.
Qed.


(** * Further properties of the analysis *)

(** ** What the call returns *)

Lemma analysis_result_fields
    (city_df : DataFrame) (selected_city : string) (res : AnalysisResult) :
  (analyze_city_temperature city_df selected_city).2 = Ok res →
  r_city res = selected_city
  ∧ r_average_temperature res = avg_temp city_df
  ∧ r_min_temperature res = min_temp city_df
  ∧ r_max_temperature res = max_temp city_df
  ∧ r_season_profile res = season_profile city_df
  ∧ trend city_df = Ok (r_trend res)
  ∧ r_rolling_mean res
    = zip (timestamp <$> rows city_df) (rolling_mean city_df)
  ∧ r_rolling_std res
    = zip (timestamp <$> rows city_df) (rolling_std city_df)
  ∧ r_anomalies res
    = anomalies (rows city_df)
        (anomaly (rows city_df) (rolling_mean city_df) (rolling_std city_df)).
Proof.
  unfold analyze_city_temperature. cbn [snd].
  change (trend (set_anomaly _ _)) with (trend city_df).
  destruct (trend city_df) as [coef|e]; [|discriminate].
  intros [= <-]. done.
Qed.

(** A call that returns was given at least one record. *)
Lemma analysis_result_nonempty
    (city_df : DataFrame) (selected_city : string) (res : AnalysisResult) :
  (analyze_city_temperature city_df selected_city).2 = Ok res →
  rows city_df ≠ [].
Proof.
  intros Hres Hnil.
  destruct (analysis_result_fields _ _ _ Hres)
    as (_ & _ & _ & _ & _ & Htrend & _).
  unfold trend in Htrend. rewrite Hnil in Htrend. discriminate.
Qed.

(** The call on the two winter days of the samples. *)
Lemma two_winter_days_trend : trend Samples.two_winter_days = Ok 2.
Proof.
  unfold trend, Sklearn.fit_coef, temperatures, sum.
  cbn [rows frame_of Samples.two_winter_days Samples.day fmap list_fmap
       timestamp temperature length foldr zip_with].
  change (INR 2) with (1 + 1).
  rewrite decide_False by lra.
  f_equal. field.
Qed.

Lemma two_winter_days_analysis :
  (analyze_city_temperature Samples.two_winter_days "Berlin").2
  = Ok MoreSamples.two_winter_days_result.
Proof.
  unfold analyze_city_temperature. cbn [snd].
  change (trend (set_anomaly _ _)) with (trend Samples.two_winter_days).
  rewrite two_winter_days_trend. reflexivity.
Qed.

(** ** The anomalies frame *)

Lemma StronglySorted_filter_seq (P : nat → Prop) `{!∀ i, Decision (P i)}
    (a n : nat) :
  StronglySorted Nat.lt (filter P (seq a n)).
Proof.
  revert a. induction n as [|n IH]; intros a; simpl; [constructor|].
  rewrite filter_cons. destruct (decide (P a)); [|apply IH].
  constructor; [apply IH|].
  apply Forall_forall. intros i [_ Hi%elem_of_seq]%list_elem_of_filter. lia.
Qed.

Lemma omap_flagged {A B} (g : A → B) (zs : list (A * bool)) :
  omap (λ rf : A * bool, if rf.2 then Some (g rf.1) else None) zs
  = (λ rf, g rf.1) <$> filter (λ rf, rf.2 = true) zs.
Proof.
  induction zs as [|[r flag] zs IH]; [done|].
  destruct flag.
  - rewrite filter_cons_True by done. simpl. f_equal. exact IH.
  - rewrite filter_cons_False by done. exact IH.
Qed.

Lemma fmap_fst_zip {A B C} (g : A → C) (l : list A) (k : list B) :
  (length l <= length k)%nat → (λ p : A * B, g p.1) <$> zip l k = g <$> l.
Proof.
  revert k. induction l as [|a l IH]; intros [|b k] Hlen; simpl in *;
    try done; try lia.
  f_equal. apply IH. lia.
Qed.

(** The boolean selection of line 96 keeps the rows at the flagged
    positions, each once and in row order. *)
Lemma anomalies_take_rows (rs : list Row) (flags : list bool) :
  length flags = length rs →
  anomalies rs flags
  = take_rows (filter (λ i, flags !! i = Some true) (seq 0 (length rs)))
      ((λ r, (timestamp r, temperature r)) <$> rs).
Proof.
  intros Hlen. unfold anomalies.
  rewrite (omap_flagged (λ r, (timestamp r, temperature r))).
  assert (Hz : length (zip rs flags) = length rs).
  { rewrite length_zip. lia. }
  rewrite <- (take_ge (zip rs flags) (length rs)) at 1 by lia.
  rewrite <- (take_rows_filter_seq (λ i, flags !! i = Some true)
                (λ rf : Row * bool, rf.2 = true)) by
    (try lia; intros i [r f] Hi;
     apply lookup_zip_with_Some in Hi as (r' & f' & [= <- <-] & Hr & Hf);
     simpl; rewrite Hf; split; congruence).
  rewrite <- take_rows_fmap. f_equal.
  apply (fmap_fst_zip (λ r : Row, (timestamp r, temperature r))). lia.
Qed.

(** X2.  When the call returns, the anomalies frame of the result lists
    the flagged records and nothing else, once per flagged record and
    in row order: its entries are the (timestamp, temperature) pairs at
    the increasing positions [idx], and a position is in [idx] exactly
    when the temperature of its record is strictly outside the rolling
    band of that record. *)
Theorem anomalies_are_the_flagged_records
    (city_df : DataFrame) (selected_city : string) (res : AnalysisResult) :
  (analyze_city_temperature city_df selected_city).2 = Ok res →
  ∃ idx : list nat,
    StronglySorted Nat.lt idx
    ∧ (∀ i, i ∈ idx
            ↔ ∃ r, rows city_df !! i = Some r
                   ∧ (Gt (Fin (temperature r))
                         (add (Spec.rolling_mean (rows city_df) i)
                              (mul (Fin 2) (Spec.rolling_std (rows city_df) i)))
                      ∨ Lt (Fin (temperature r))
                           (sub (Spec.rolling_mean (rows city_df) i)
                                (mul (Fin 2)
                                   (Spec.rolling_std (rows city_df) i)))))
    ∧ r_anomalies res
      = take_rows idx ((λ r, (timestamp r, temperature r)) <$> rows city_df)
    ∧ length (r_anomalies res) = length idx.
Proof.
  intros Hres.
  destruct (analysis_result_fields _ _ _ Hres)
    as (_ & _ & _ & _ & _ & _ & _ & _ & ->).
  set (flags := anomaly (rows city_df) (rolling_mean city_df)
                  (rolling_std city_df)).
  assert (Hm : length (rolling_mean city_df) = length (rows city_df)).
  { unfold rolling_mean, temperatures.
    now rewrite length_transform, length_fmap. }
  assert (Hs : length (rolling_std city_df) = length (rows city_df)).
  { unfold rolling_std, temperatures.
    now rewrite length_transform, length_fmap. }
  assert (Hlen : length flags = length (rows city_df)).
  { unfold flags, anomaly. rewrite !length_zip_with, Hm, Hs. lia. }
  exists (filter (λ i, flags !! i = Some true) (seq 0 (length (rows city_df)))).
  assert (Hin : ∀ i,
    i ∈ filter (λ i, flags !! i = Some true) (seq 0 (length (rows city_df)))
    ↔ ∃ r, rows city_df !! i = Some r
           ∧ (Gt (Fin (temperature r))
                 (add (Spec.rolling_mean (rows city_df) i)
                      (mul (Fin 2) (Spec.rolling_std (rows city_df) i)))
              ∨ Lt (Fin (temperature r))
                   (sub (Spec.rolling_mean (rows city_df) i)
                        (mul (Fin 2) (Spec.rolling_std (rows city_df) i))))).
  { intros i. rewrite list_elem_of_filter, elem_of_seq. split.
    - intros [Hflag [_ Hi]].
      destruct (lookup_lt_is_Some_2 (rows city_df) i) as [r Hr]; [lia|].
      exists r. split; [done|].
      unfold flags in Hflag.
      rewrite (anomaly_lookup _ _ _ _ _ _ _ Hr
                 (rolling_mean_lookup _ _ _ Hr) (rolling_std_lookup _ _ _ Hr))
        in Hflag.
      injection Hflag as Hflag. now apply anomaly_row_true_iff.
    - intros (r & Hr & Hout). split.
      + unfold flags.
        rewrite (anomaly_lookup _ _ _ _ _ _ _ Hr
                   (rolling_mean_lookup _ _ _ Hr) (rolling_std_lookup _ _ _ Hr)).
        f_equal. now apply anomaly_row_true_iff.
      + pose proof (lookup_lt_Some _ _ _ Hr). lia. }
  split_and!.
  - apply StronglySorted_filter_seq.
  - exact Hin.
  - now apply anomalies_take_rows.
  - rewrite anomalies_take_rows by done.
    apply take_rows_total, Forall_forall. intros i Hi.
    apply list_elem_of_filter in Hi as [_ Hi%elem_of_seq].
    rewrite length_fmap. lia.
Qed.

Lemma anomalies_are_the_flagged_records_witness :
  (analyze_city_temperature Samples.two_winter_days "Berlin").2
  = Ok MoreSamples.two_winter_days_result
  ∧ ∃ idx : list nat,
      StronglySorted Nat.lt idx
      ∧ (∀ i, i ∈ idx
              ↔ ∃ r, rows Samples.two_winter_days !! i = Some r
                     ∧ (Gt (Fin (temperature r))
                           (add (Spec.rolling_mean
                                   (rows Samples.two_winter_days) i)
                                (mul (Fin 2)
                                   (Spec.rolling_std
                                      (rows Samples.two_winter_days) i)))
                        ∨ Lt (Fin (temperature r))
                             (sub (Spec.rolling_mean
                                     (rows Samples.two_winter_days) i)
                                  (mul (Fin 2)
                                     (Spec.rolling_std
                                        (rows Samples.two_winter_days) i)))))
      ∧ r_anomalies MoreSamples.two_winter_days_result
        = take_rows idx ((λ r, (timestamp r, temperature r))
                           <$> rows Samples.two_winter_days)
      ∧ length (r_anomalies MoreSamples.two_winter_days_result) = length idx.
Proof.
  split; [exact two_winter_days_analysis|].
  apply (anomalies_are_the_flagged_records Samples.two_winter_days "Berlin"
           MoreSamples.two_winter_days_result two_winter_days_analysis).
Defined.

(** ** The minimum and the maximum *)

Lemma foldr_Rmin_attained (x : R) (xs : list R) : foldr Rmin x xs ∈ x :: xs.
Proof.
  induction xs as [|y ys IH]; simpl.
  - apply elem_of_cons. now left.
  - unfold Rmin at 1. destruct (Rle_dec _ _).
    + apply elem_of_cons. right. apply elem_of_cons. now left.
    + apply elem_of_cons in IH as [->|IH].
      * apply elem_of_cons. now left.
      * apply elem_of_cons. right. apply elem_of_cons. now right.
Qed.

Lemma foldr_Rmax_attained (x : R) (xs : list R) : foldr Rmax x xs ∈ x :: xs.
Proof.
  induction xs as [|y ys IH]; simpl.
  - apply elem_of_cons. now left.
  - unfold Rmax at 1. destruct (Rle_dec _ _).
    + apply elem_of_cons in IH as [->|IH].
      * apply elem_of_cons. now left.
      * apply elem_of_cons. right. apply elem_of_cons. now right.
    + apply elem_of_cons. right. apply elem_of_cons. now left.
Qed.

(** X3.  When the call returns, the minimum and the maximum of the
    result are temperatures of records of the series, and the
    temperature of every record lies between them. *)
Theorem extremes_are_record_temperatures
    (city_df : DataFrame) (selected_city : string) (res : AnalysisResult) :
  (analyze_city_temperature city_df selected_city).2 = Ok res →
  ∃ lo hi : R,
    r_min_temperature res = Fin lo
    ∧ r_max_temperature res = Fin hi
    ∧ (∀ r, r ∈ rows city_df → lo <= temperature r <= hi)
    ∧ (∃ r, r ∈ rows city_df ∧ temperature r = lo)
    ∧ (∃ r, r ∈ rows city_df ∧ temperature r = hi).
Proof.
  intros Hres.
  pose proof (analysis_result_nonempty _ _ _ Hres) as Hne.
  destruct (analysis_result_fields _ _ _ Hres)
    as (_ & _ & -> & -> & _).
  unfold min_temp, max_temp, min, max.
  destruct (temperatures city_df) as [|x xs] eqn:E.
  { unfold temperatures in E. destruct (rows city_df); done. }
  exists (foldr Rmin x xs), (foldr Rmax x xs).
  split; [done|]. split; [done|]. split; [|split].
  - intros r Hr.
    assert (Hin : temperature r ∈ x :: xs).
    { rewrite <- E. unfold temperatures. now apply list_elem_of_fmap_2. }
    destruct (foldr_Rmin_le x xs) as [H1 H2].
    destruct (foldr_Rmax_ge x xs) as [H3 H4].
    rewrite Forall_forall in H2, H4.
    apply elem_of_cons in Hin as [->|Hin]; [lra|].
    split; [apply H2|apply H4]; done.
  - pose proof (foldr_Rmin_attained x xs) as Hin. rewrite <- E in Hin.
    unfold temperatures in Hin.
    apply list_elem_of_fmap in Hin as (r & Heq & Hr). eauto.
  - pose proof (foldr_Rmax_attained x xs) as Hin. rewrite <- E in Hin.
    unfold temperatures in Hin.
    apply list_elem_of_fmap in Hin as (r & Heq & Hr). eauto.
Qed.

Lemma extremes_are_record_temperatures_witness :
  (analyze_city_temperature Samples.two_winter_days "Berlin").2
  = Ok MoreSamples.two_winter_days_result
  ∧ ∃ lo hi : R,
      r_min_temperature MoreSamples.two_winter_days_result = Fin lo
      ∧ r_max_temperature MoreSamples.two_winter_days_result = Fin hi
      ∧ (∀ r, r ∈ rows Samples.two_winter_days → lo <= temperature r <= hi)
      ∧ (∃ r, r ∈ rows Samples.two_winter_days ∧ temperature r = lo)
      ∧ (∃ r, r ∈ rows Samples.two_winter_days ∧ temperature r = hi).
Proof.
  split; [exact two_winter_days_analysis|].
  apply (extremes_are_record_temperatures Samples.two_winter_days "Berlin"
           MoreSamples.two_winter_days_result two_winter_days_analysis).
Defined.

(** ** How many records a season needs before one can be flagged *)












(** The bound is sharp: the sixth record of a season can be flagged. *)
Example sixth_record_can_be_flagged :
  (col_anomaly
     (analyze_city_temperature MoreSamples.spike_after_five "Berlin").1
     ≫= (.!! 5%nat)) = Some true.
Proof.
  assert (Hr : rows MoreSamples.spike_after_five !! 5%nat
               = Some (Samples.day 5 10 "winter")) by reflexivity.
  destruct (analyze_columns MoreSamples.spike_after_five "Berlin")
    as (_ & _ & _ & ->).
  cbn [mbind option_bind].
  rewrite (anomaly_lookup _ _ _ _ _ _ _ Hr
             (rolling_mean_lookup _ _ _ Hr) (rolling_std_lookup _ _ _ Hr)).
  f_equal. apply anomaly_row_true_iff. left.
  evaluate_frame.
  match goal with |- _ + 2 * sqrt ?v < _ =>
    replace v with (50 / 3) by (simpl; field) end.
  assert (Hsqrt : sqrt (50 / 3) < 25 / 6).
  { rewrite <- (sqrt_square (25 / 6)) by lra. apply sqrt_lt_1_alt. lra. }
  simpl. lra.
Qed.

(** * Properties of the application *)

(** ** The city that is analysed *)

Lemma elem_of_unique {L} `{EqDecision L} (l : list L) (x : L) :
  x ∈ unique l ↔ x ∈ l.
Proof.
  induction l as [|a l IH]; [done|]. simpl.
  rewrite !elem_of_cons, list_elem_of_filter, IH.
  destruct (decide (x = a)); tauto.
Qed.

Lemma NoDup_unique {L} `{EqDecision L} (l : list L) : NoDup (unique l).
Proof.
  induction l as [|a l IH]; simpl; [constructor|].
  apply NoDup_cons. split.
  - rewrite list_elem_of_filter. intros [Hne _]. now apply Hne.
  - now apply NoDup_filter.
Qed.

Lemma cell_eq_true (a : option string) (c : string) :
  cell_eq a (Some c) = true ↔ a = Some c.
Proof.
  destruct a as [x|]; simpl; [|done].
  rewrite bool_decide_eq_true. split; congruence.
Qed.

Lemma cell_eq_blank (a : option string) : cell_eq a None = false.
Proof. now destruct a. Qed.

(** X6.  The entries offered for selection are the cells of the file's
    city column, each once, a blank cell (NaN) included.  For a city
    name the lines that are analysed are the lines of the file at the
    increasing positions [idx], which are exactly the positions of the
    lines with that name: every such line once, in file order; they are
    at least one exactly when the name is offered.  The blank entry
    selects no line at all, also when it is offered. *)
Theorem cities_are_the_cities_of_the_file
    {A : Type} (city_of : A → option string) (data : list A) :
  NoDup (cities (city_of <$> data))
  ∧ (∀ c, c ∈ cities (city_of <$> data) ↔ ∃ u, u ∈ data ∧ city_of u = c)
  ∧ (∀ name : string,
       ∃ idx : list nat,
         StronglySorted Nat.lt idx
         ∧ (∀ i, i ∈ idx ↔ ∃ u, data !! i = Some u ∧ city_of u = Some name)
         ∧ city_lines city_of data (Some name) = take_rows idx data
         ∧ length (city_lines city_of data (Some name)) = length idx)
  ∧ (∀ name : string,
       Some name ∈ cities (city_of <$> data)
       ↔ city_lines city_of data (Some name) ≠ [])
  ∧ city_lines city_of data None = [].
Proof.
  assert (Hcities : ∀ c, c ∈ cities (city_of <$> data)
                         ↔ ∃ u, u ∈ data ∧ city_of u = c).
  { intros c. unfold cities. rewrite elem_of_unique, list_elem_of_fmap.
    split; intros (u & H1 & H2); exists u; done. }
  assert (Hlines : ∀ name u,
            u ∈ city_lines city_of data (Some name)
            ↔ u ∈ data ∧ city_of u = Some name).
  { intros name u. unfold city_lines.
    rewrite list_elem_of_filter, cell_eq_true. tauto. }
  split_and!.
  - apply NoDup_unique.
  - exact Hcities.
  - intros name.
    set (P' := λ i, (city_of <$> data) !! i = Some (Some name)).
    assert (Heq : city_lines city_of data (Some name)
                  = take_rows (filter P' (seq 0 (length data))) data).
    { unfold city_lines.
      rewrite <- (take_ge data (length data)) at 1 by lia.
      symmetry. apply take_rows_filter_seq; [|lia].
      intros i u Hu. unfold P'. rewrite list_lookup_fmap, Hu. simpl.
      rewrite cell_eq_true. split; congruence. }
    exists (filter P' (seq 0 (length data))). split_and!.
    + apply StronglySorted_filter_seq.
    + intros i. rewrite list_elem_of_filter, elem_of_seq. unfold P'.
      rewrite list_lookup_fmap. split.
      * intros [Hc _]. destruct (data !! i) as [u|]; [|done].
        exists u. split; [done|]. simpl in Hc. congruence.
      * intros (u & Hu & Hc). rewrite Hu. simpl. split; [congruence|].
        pose proof (lookup_lt_Some _ _ _ Hu). lia.
    + exact Heq.
    + rewrite Heq. apply take_rows_total, Forall_forall. intros i Hi.
      apply list_elem_of_filter in Hi as [_ Hi%elem_of_seq]. lia.
  - intros name. rewrite Hcities. split.
    + intros (u & Hu & Hc) Hnil.
      assert (Hin : u ∈ city_lines city_of data (Some name))
        by now apply Hlines.
      rewrite Hnil in Hin. by apply elem_of_nil in Hin.
    + intros Hne.
      destruct (city_lines city_of data (Some name)) as [|u l] eqn:E; [done|].
      assert (Hin : u ∈ city_lines city_of data (Some name)).
      { rewrite E. apply elem_of_cons. now left. }
      apply Hlines in Hin as [Hu Hc]. eauto.
  - unfold city_lines. clear Hcities Hlines.
    induction data as [|u data IH]; [done|].
    rewrite filter_cons_False; [exact IH|].
    now rewrite cell_eq_blank.
Qed.

(** A blank city cell is offered for selection and selects nothing. *)
Example blank_city_is_offered_but_selects_nothing :
  cities MoreSamples.city_cells_with_a_blank = [Some "Berlin"; None]
  ∧ city_lines (λ cell, cell) MoreSamples.city_cells_with_a_blank None = []
  ∧ city_lines (λ cell, cell) MoreSamples.city_cells_with_a_blank (Some "Berlin")
    = [Some "Berlin"; Some "Berlin"].
Proof. split_and!; reflexivity. Qed.

(** ** The live reading in a calendar month *)

(** X8.  In every calendar month the season looked up is the one of the
    December-to-February, March-to-May, June-to-August,
    September-to-November calendar; the check of a numeric reading then
    returns its verdict when the series has a record of that season and
    raises [KeyError] for that season when it has none. *)
Theorem live_check_in_month
    (city_df : DataFrame) (month : nat) (current_temp : float) :
  (1 <= month <= 12)%nat →
  ∃ s : string,
    current_season month = Ok s
    ∧ calendar_seasons !! (month `mod` 12 / 3)%nat = Some s
    ∧ (s ∈ seasons city_df →
       ∃ c, check_reading_in_month month current_temp (season_profile city_df)
            = Ok c
            ∧ (is_normal c = true
               ↔ Le (lower_bound c) current_temp
                 ∧ Le current_temp (upper_bound c)))
    ∧ (s ∉ seasons city_df →
       check_reading_in_month month current_temp (season_profile city_df)
       = Raise (KeyError s)).
Proof.
  intros Hmonth.
  assert (Hs : ∃ s, season_map month = Some s
                    ∧ calendar_seasons !! (month `mod` 12 / 3)%nat = Some s).
  { do 13 (destruct month as [|month]; [try lia; eexists; split; reflexivity|]).
    lia. }
  destruct Hs as (s & Hmap & Hcal). exists s.
  unfold check_reading_in_month, current_season. rewrite Hmap.
  cbn [bind]. unfold check_current_reading, loc.
  rewrite season_profile_lookup.
  split_and!; [done|done| |].
  - intros Hin. rewrite decide_True by done. cbn [bind fst snd].
    eexists. split; [reflexivity|]. apply is_normal_iff.
  - intros Hout. now rewrite decide_False by done.
Qed.

Lemma live_check_in_month_witness :
  (1 <= 1 <= 12)%nat
  ∧ ∃ s : string,
      current_season 1 = Ok s
      ∧ calendar_seasons !! (1 `mod` 12 / 3)%nat = Some s
      ∧ (s ∈ seasons Samples.two_winter_days →
         ∃ c, check_reading_in_month 1 (Fin 2)
                (season_profile Samples.two_winter_days) = Ok c
              ∧ (is_normal c = true
                 ↔ Le (lower_bound c) (Fin 2) ∧ Le (Fin 2) (upper_bound c)))
      ∧ (s ∉ seasons Samples.two_winter_days →
         check_reading_in_month 1 (Fin 2)
           (season_profile Samples.two_winter_days)
         = Raise (KeyError s)).
Proof.
  assert (H : (1 <= 1 <= 12)%nat) by lia.
  split; [exact H|].
  apply (live_check_in_month Samples.two_winter_days 1 (Fin 2) H).
Defined.

(** * Properties of the figures *)

(** ** The time-series figure *)

Lemma series_binop_lookup (op : float → float → float) (a b : list float)
    (i : nat) (u v : float) :
  a !! i = Some u → b !! i = Some v →
  series_binop op a b !! i = Some (op u v).
Proof.
  intros Ha Hb. unfold series_binop.
  pose proof (lookup_lt_Some _ _ _ Ha) as Hlt.
  rewrite list_lookup_fmap, lookup_seq_lt by lia.
  simpl. now rewrite Ha, Hb.
Qed.

Lemma length_series_binop (op : float → float → float) (a b : list float) :
  length (series_binop op a b) = (length a `max` length b)%nat.
Proof. unfold series_binop. now rewrite length_fmap, length_seq. Qed.






(** ** The seasonal-profile figure *)

Lemma zip_fmap_same {A B C} (f : A → B) (g : A → C) (l : list A) :
  zip (f <$> l) (g <$> l) = (λ e, (f e, g e)) <$> l.
Proof. induction l as [|e l IH]; [done|]. simpl. f_equal. exact IH. Qed.

(** X10.  The seasonal-profile figure has two traces: the line of the
    means, one point per row of the profile in its order, and a closed
    outline of twice as many points, which runs along [mean + std]
    through the seasons and comes back along [mean - std] through the
    same seasons in reverse order. *)
Theorem seasonal_profile_outline
    (season_profile : list (string * (float * float))) :
  ∃ line outline,
    Plotly.data (plot_seasonal_profile season_profile) = [line; outline]
    ∧ Plotly.points line = (λ e, (e.1, e.2.1)) <$> season_profile
    ∧ length (Plotly.x outline) = (2 * length season_profile)%nat
    ∧ length (Plotly.y outline) = (2 * length season_profile)%nat
    ∧ ∀ i s m sd,
        season_profile !! i = Some (s, (m, sd)) →
        Plotly.points outline !! i = Some (s, add m sd)
        ∧ Plotly.points outline !! (2 * length season_profile - 1 - i)%nat
          = Some (s, sub m sd).
Proof.
  eexists _, _. split; [reflexivity|].
  unfold Plotly.points. cbn [Plotly.x Plotly.y].
  set (n := length season_profile).
  assert (Hls : length (profile_index season_profile) = n).
  { unfold profile_index. now rewrite length_fmap. }
  assert (Hlu : length (zip_with add (profile_means season_profile)
                          (profile_stds season_profile)) = n).
  { unfold profile_means, profile_stds.
    rewrite length_zip_with, !length_fmap. fold n. lia. }
  assert (Hll : length (zip_with sub (profile_means season_profile)
                          (profile_stds season_profile)) = n).
  { unfold profile_means, profile_stds.
    rewrite length_zip_with, !length_fmap. fold n. lia. }
  split_and!.
  - unfold profile_index, profile_means. apply zip_fmap_same.
  - rewrite length_app, length_reverse, Hls. lia.
  - rewrite length_app, length_reverse, Hlu, Hll. lia.
  - intros i s m sd Hi.
    pose proof (lookup_lt_Some _ _ _ Hi) as Hlt. fold n in Hlt.
    assert (Hs : profile_index season_profile !! i = Some s).
    { unfold profile_index. now rewrite list_lookup_fmap, Hi. }
    assert (Hm : profile_means season_profile !! i = Some m).
    { unfold profile_means. now rewrite list_lookup_fmap, Hi. }
    assert (Hsd : profile_stds season_profile !! i = Some sd).
    { unfold profile_stds. now rewrite list_lookup_fmap, Hi. }
    split; apply lookup_zip_with_Some; eexists _, _;
      (split; [reflexivity|]); split.
    + now rewrite lookup_app_l by lia.
    + rewrite lookup_app_l by lia. apply lookup_zip_with_Some. eauto.
    + rewrite lookup_app_r by lia. rewrite Hls.
      rewrite reverse_lookup by lia. rewrite Hls, <- Hs. f_equal. lia.
    + rewrite lookup_app_r by lia. rewrite Hlu.
      rewrite reverse_lookup by lia. rewrite Hll.
      replace (n - S (2 * n - 1 - i - n))%nat with i by lia.
      apply lookup_zip_with_Some. eauto.
Qed.

(** ** The annual-cycle figure *)

Lemma month_group_temperatures (dt_month : Z → nat) (rs : list Row) (m : nat) :
  take_rows (month_positions ((λ r, dt_month (timestamp r)) <$> rs) m)
            (temperature <$> rs)
  = temperature <$> filter (λ r, dt_month (timestamp r) = m) rs.
Proof.
  unfold month_positions.
  rewrite take_rows_fmap, length_fmap. f_equal.
  rewrite <- (take_ge rs (length rs)) at 3 by lia.
  apply take_rows_filter_seq; [|lia].
  intros j r Hr. rewrite list_lookup_fmap, Hr. simpl.
  split; [now intros [= ->] | now intros ->].
Qed.

Lemma monthly_index (agg : list R → float) (months : list nat) (temps : list R) :
  fst <$> monthly agg months temps = merge_sort (≤) (remove_dups months).
Proof.
  unfold monthly, groupby_month.
  rewrite <- !list_fmap_compose. apply list_fmap_id.
Qed.

Lemma monthly_lookup (agg : list R → float) (months : list nat)
    (temps : list R) (j m : nat) :
  merge_sort (≤) (remove_dups months) !! j = Some m →
  (snd <$> monthly agg months temps) !! j
  = Some (agg (take_rows (month_positions months m) temps)).
Proof.
  intros Hj. unfold monthly, groupby_month.
  rewrite <- !list_fmap_compose, list_lookup_fmap, Hj. reflexivity.
Qed.

(** X11.  The annual-cycle call writes the calendar month of every
    record into the caller's frame and draws three traces over the same
    months: the months that occur in the series, in increasing order,
    each once.  At each month the first trace is the mean of that
    month's temperatures and the other two are that mean plus and minus
    twice their sample standard deviation. *)
Theorem annual_cycle_by_month (dt_month : Z → nat) (city_data : DataFrame) :
  let out := plot_annual_temperature_cycle dt_month city_data in
  out.1 = (λ r, dt_month (timestamp r)) <$> rows city_data
  ∧ ∃ avg upper lower,
      Plotly.data out.2 = [avg; upper; lower]
      ∧ Plotly.x upper = Plotly.x avg
      ∧ Plotly.x lower = Plotly.x avg
      ∧ Sorted (≤) (Plotly.x avg)
      ∧ NoDup (Plotly.x avg)
      ∧ (∀ m, m ∈ Plotly.x avg
              ↔ ∃ r, r ∈ rows city_data ∧ dt_month (timestamp r) = m)
      ∧ ∀ j m,
          Plotly.x avg !! j = Some m →
          let temps :=
            temperature
              <$> filter (λ r, dt_month (timestamp r) = m) (rows city_data) in
          Plotly.y avg !! j = Some (mean temps)
          ∧ Plotly.y upper !! j
            = Some (add (mean temps) (mul (Fin 2) (std temps)))
          ∧ Plotly.y lower !! j
            = Some (sub (mean temps) (mul (Fin 2) (std temps))).
Proof.
  intros out. split; [reflexivity|].
  eexists _, _, _. split; [reflexivity|].
  cbn [Plotly.x Plotly.y].
  split; [reflexivity|]. split; [reflexivity|].
  rewrite monthly_index.
  set (months := (λ r, dt_month (timestamp r)) <$> rows city_data).
  split_and!.
  - apply Sorted_merge_sort. apply _.
  - rewrite merge_sort_Permutation. apply NoDup_remove_dups.
  - intros m. rewrite merge_sort_Permutation, elem_of_remove_dups.
    unfold months. rewrite list_elem_of_fmap.
    split; intros (r & H1 & H2); exists r; done.
  - intros j m Hj.
    pose proof (monthly_lookup mean months (temperatures city_data) j m Hj) as Ha.
    pose proof (monthly_lookup std months (temperatures city_data) j m Hj) as Hs.
    unfold temperatures, months in Ha, Hs.
    rewrite month_group_temperatures in Ha, Hs.
    assert (Hs2 : series_scale 2
                    (snd <$> monthly std months (temperatures city_data)) !! j
                  = Some (mul (Fin 2)
                            (std (temperature
                                    <$> filter (λ r, dt_month (timestamp r) = m)
                                          (rows city_data))))).
    { unfold series_scale. rewrite list_lookup_fmap.
      unfold temperatures, months. now rewrite Hs. }
    split_and!.
    + exact Ha.
    + now apply series_binop_lookup.
    + now apply series_binop_lookup.
Qed.
